(** * TTS QA recorder: the classification heuristic and the windowed analytics

    A shallow embedding of [inferCategory], [analysisData] and [summaryText]
    (src/types.ts) with the constants of src/constants.ts, followed by the
    properties of the specification.

    Conventions of the embedding.
    - A JavaScript string is the [string] of its UTF-8 bytes.  Substring
      search on well-formed UTF-8 agrees with search on UTF-16 code units.
    - A Number that holds a count is a [nat]; a Number that holds a ratio is
      an exact rational [Q] (binary floating point is idealised away).
    - A [Date] is its time value, milliseconds since the epoch, in [Z]; an
      Invalid Date is [None].
    - The host time zone is a constant offset [tza] (milliseconds east of
      UTC): zones whose offset changes inside the reporting window are not
      covered. *)

From Stdlib Require Import ZArith QArith Qround Qabs String Ascii List Sorted Permutation Lia.
From stdpp Require Import base option gmap strings list pretty.
Import ListNotations.

(** ** ECMAScript built-ins used by the source *)

Module JS.

(** *** Strings *)

(** [kw] is spelled by the first characters of [text]. *)
Fixpoint startsWith (text kw : string) {struct kw} : bool :=
  match kw with
  | EmptyString => true
  | String a kw' =>
      match text with
      | EmptyString => false
      | String b text' => Ascii.eqb a b && startsWith text' kw'
      end
  end.

(** [text.includes(kw)]: [kw] starts at some position of [text]. *)
Fixpoint includes (text kw : string) : bool :=
  startsWith text kw ||
  match text with
  | EmptyString => false
  | String _ rest => includes rest kw
  end.

(** [toLowerCase] on the Basic Latin block: A-Z go to a-z.  Every other byte
    is kept, so the bytes of a multi-byte UTF-8 character never change.  The
    Unicode case mappings outside Basic Latin are not part of this model;
    the keyword tables of the classifier only hold caseless characters. *)
Definition lowerChar (c : ascii) : ascii :=
  let n := nat_of_ascii c in
  if (65 <=? n)%nat && (n <=? 90)%nat then ascii_of_nat (n + 32) else c.

Fixpoint toLowerCase (s : string) : string :=
  match s with
  | EmptyString => EmptyString
  | String c rest => String (lowerChar c) (toLowerCase rest)
  end.

(** [parts.join(sep)] *)
Definition join (sep : string) (parts : list string) : string :=
  String.concat sep parts.

(** [`${n}`] for a non-negative integer Number. *)
Definition numToString (n : nat) : string := pretty n.

(** *** Abrupt completions

    [RangeError] is what [toISOString] throws on an Invalid Date.  A division
    in JavaScript does not throw; the model reports a zero divisor as
    [ZeroDivisor] so that the guards around the two ratios can be stated. *)
Inductive JsError := RangeError | ZeroDivisor.

Inductive result (A : Type) : Type :=
  | Ok (a : A)
  | Throw (e : JsError).
Arguments Ok {A} a.
Arguments Throw {A} e.

#[global] Instance result_ret : MRet result := fun A a => Ok a.
#[global] Instance result_bind : MBind result := fun A B f m =>
  match m with
  | Ok a => f a
  | Throw e => Throw e
  end.

(** *** Numbers as exact rationals *)

Definition ofCount (n : nat) : Q := inject_Z (Z.of_nat n).

Definition div (x y : Q) : result Q :=
  if Qeq_bool y 0 then Throw ZeroDivisor else Ok (x / y)%Q.

(** [x.toFixed(1)]: the integer [n] with [n / 10] nearest to [x], the larger
    one on a tie, printed with one digit after the point; a negative [x] is
    printed as ["-"] followed by the digits of [-x]. *)
Definition tenths (x : Q) : Z := Qfloor (x * 10 + (1 # 2))%Q.

Definition showTenths (n : Z) : string :=
  pretty (n / 10)%Z +:+ "." +:+ pretty (n mod 10)%Z.

Definition toFixed1 (x : Q) : string :=
  if Qlt_le_dec x 0 then "-" +:+ showTenths (tenths (- x)%Q)
  else showTenths (tenths x).

(** *** Dates *)

Definition msPerDay : Z := 86400000.
Definition Day (t : Z) : Z := t / msPerDay.
Definition TimeWithinDay (t : Z) : Z := t mod msPerDay.
Definition MakeTime (h m s ms : Z) : Z := h * 3600000 + m * 60000 + s * 1000 + ms.
Definition MakeDate (day time : Z) : Z := day * msPerDay + time.

Definition LocalTime (tza t : Z) : Z := t + tza.
Definition UTC (tza t : Z) : Z := t - tza.

(** [d.setHours(h, m, s, ms)] *)
Definition setHours (tza t h m s ms : Z) : Z :=
  UTC tza (MakeDate (Day (LocalTime tza t)) (MakeTime h m s ms)).

(** [d.setDate(e.getDate() + k)] where [d] and [e] hold the same time value.
    [getDate] is [Day(local) - Day(first of the month) + 1] and [MakeDay] is
    [Day(first of the month) + date - 1], so the local day number moves by
    [k] and the time within the day is kept. *)
Definition setDate_getDate_plus (tza t k : Z) : Z :=
  UTC tza (MakeDate (Day (LocalTime tza t) + k) (TimeWithinDay (LocalTime tza t))).

(** [new Date(s)]: the parsed time value, or an Invalid Date. *)
Definition Date := option Z.

(** [a >= b] and [a <= b] on dates compare time values; a comparison with an
    Invalid Date (NaN) is false. *)
Definition date_ge (a : Date) (b : Z) : bool :=
  match a with
  | Some t => (b <=? t)%Z
  | None => false
  end.

Definition date_le (a : Date) (b : Z) : bool :=
  match a with
  | Some t => (t <=? b)%Z
  | None => false
  end.

(** [d.toISOString().slice(0, 10)].  The ten characters YYYY-MM-DD spell the
    UTC calendar date, which for the years 0000-9999 is in one-to-one
    correspondence with the UTC day number; the model uses the day number as
    the key.  [toISOString] throws on an Invalid Date. *)
Definition DateKey := Z.

Definition toISODate (d : Date) : result DateKey :=
  match d with
  | Some t => Ok (Day t)
  | None => Throw RangeError
  end.

(** *** Plain objects used as string-keyed tables

    The own properties in creation order. *)
Definition object (K V : Type) := list (K * V).

Section Object.
Context {K V : Type} `{EqDecision K}.

Fixpoint get (o : object K V) (k : K) : option V :=
  match o with
  | [] => None
  | (k', v) :: rest => if decide (k = k') then Some v else get rest k
  end.

(** [o[k] = v]: an existing property keeps its place. *)
Fixpoint set (o : object K V) (k : K) (v : V) : object K V :=
  match o with
  | [] => [(k, v)]
  | (k', v') :: rest =>
      if decide (k = k') then (k, v) :: rest else (k', v') :: set rest k v
  end.

(** [k in o] *)
Definition has (o : object K V) (k : K) : bool :=
  match get o k with
  | Some _ => true
  | None => false
  end.
End Object.

(** An array index is a canonical decimal numeral below 2^32 - 1. *)
Fixpoint digitsValue (s : string) (acc : N) : option N :=
  match s with
  | EmptyString => Some acc
  | String c rest =>
      let n := N_of_ascii c in
      if (48 <=? n)%N && (n <=? 57)%N
      then digitsValue rest (acc * 10 + (n - 48))%N
      else None
  end.

Definition arrayIndex (s : string) : option N :=
  match s with
  | EmptyString => None
  | String c rest =>
      if Ascii.eqb c "0" && negb (String.eqb rest "") then None
      else match digitsValue s 0 with
           | Some v => if (v <? 4294967295)%N then Some v else None
           | None => None
           end
  end.

Definition isIndexKey {V : Type} (e : string * V) : bool :=
  match arrayIndex e.1 with
  | Some _ => true
  | None => false
  end.

Fixpoint insertByIndex {V : Type} (x : N * (string * V))
    (l : list (N * (string * V))) : list (N * (string * V)) :=
  match l with
  | [] => [x]
  | y :: rest => if (x.1 <? y.1)%N then x :: l else y :: insertByIndex x rest
  end.

Definition indexEntries {V : Type} (o : object string V) : list (N * (string * V)) :=
  omap (fun e => (fun i => (i, e)) <$> arrayIndex e.1) o.

(** [Object.entries(o)]: the array-index keys in ascending numeric order,
    then the other keys in creation order. *)
Definition entries {V : Type} (o : object string V) : list (string * V) :=
  map snd (foldr insertByIndex [] (indexEntries o))
  ++ List.filter (fun e => negb (isIndexKey e)) o.

End JS.

(** ** Data model (src/types.ts) *)

Inductive IssueCategory := text | tts.

#[global] Instance IssueCategory_eq_dec : EqDecision IssueCategory.
Proof. solve_decision. Defined.

Record Session := {
  session_id_ : string;
  reporter_name : string;
  tester_device : option string;
  tester_os : option string;
  session_created_at : string;
}.

(** [created_at] is kept as the value of [new Date(item.created_at)], the
    only way the analytics read it. *)
Record Observation := {
  id : string;
  session_id : string;
  course_name : string;
  category : IssueCategory;
  tags : list string;
  issue_description : string;
  feeling_tags : list string;
  feeling_other : option string;
  created_at : JS.Date;
}.

Record ObservationDraft := {
  draft_course_name : string;
  draft_tags : list string;
  draft_issue_description : string;
  draft_feeling_tags : list string;
  draft_feeling_other : string;
}.

Inductive AnalysisWindow := W7d | W30d | Wall.

#[global] Instance AnalysisWindow_eq_dec : EqDecision AnalysisWindow.
Proof. solve_decision. Defined.

Record ClassificationResult := {
  result_category : IssueCategory;
  reason : string;
}.

(** ** Constants (src/constants.ts) *)

Definition textIssueTags : list string :=
  ["夸奖密度过高"; "反馈力度失衡"; "口语词不自然"; "文本表达别扭"; "其他"].

Definition ttsIssueTags : list string :=
  ["发音错误"; "断句停顿不合理"; "重读异常"; "连读/吞音"; "语速异常"; "噪声/毛刺";
   "其他"].

Definition feelingOtherOption : string := "其他".

(** ** The classifier (src/types.ts, [inferCategory]) *)

Definition textKeywords : list string :=
  ["夸奖"; "夸麻木"; "反馈"; "策略"; "口语"; "不自然"; "表达"; "过头"].

Definition ttsKeywords : list string :=
  ["发音"; "断句"; "停顿"; "重读"; "连读"; "吞音"; "语速"; "噪声"; "毛刺"; "读音"].

Definition textTagSet : gset string := list_to_set textIssueTags.
Definition ttsTagSet : gset string := list_to_set ttsIssueTags.

Definition emptyObservationDraft : ObservationDraft := {|
  draft_course_name := "";
  draft_tags := [];
  draft_issue_description := "";
  draft_feeling_tags := [];
  draft_feeling_other := "";
|}.

(** [keywords.reduce((sum, keyword) => text.includes(keyword) ? sum + 1 : sum, 0)] *)
Definition getMatchScore (text : string) (keywords : list string) : nat :=
  fold_left (fun sum keyword => if JS.includes text keyword then sum + 1 else sum)
    keywords 0.

Definition textTagScore (draft : ObservationDraft) : nat :=
  length (List.filter (fun tag => bool_decide (tag ∈ textTagSet)) (draft_tags draft)).

Definition ttsTagScore (draft : ObservationDraft) : nat :=
  length (List.filter (fun tag => bool_decide (tag ∈ ttsTagSet)) (draft_tags draft)).

Definition mergedText (draft : ObservationDraft) : string :=
  JS.toLowerCase
    (JS.join " " [draft_issue_description draft; JS.join " " (draft_tags draft)]).

Definition textKeywordScore (draft : ObservationDraft) : nat :=
  getMatchScore (mergedText draft) textKeywords.

Definition ttsKeywordScore (draft : ObservationDraft) : nat :=
  getMatchScore (mergedText draft) ttsKeywords.

Definition textScore (draft : ObservationDraft) : nat :=
  textTagScore draft * 2 + textKeywordScore draft.

Definition ttsScore (draft : ObservationDraft) : nat :=
  ttsTagScore draft * 2 + ttsKeywordScore draft.

Definition textWinsReason (score tagScore keywordScore : nat) : string :=
  "文本得分 " +:+ JS.numToString score +:+ "（标签 " +:+ JS.numToString tagScore
  +:+ "，关键词 " +:+ JS.numToString keywordScore +:+ "）".

Definition ttsWinsReason (score tagScore keywordScore : nat) : string :=
  "TTS得分 " +:+ JS.numToString score +:+ "（标签 " +:+ JS.numToString tagScore
  +:+ "，关键词 " +:+ JS.numToString keywordScore +:+ "）".

Definition tagTieReason : string := "标签分数接近，默认归类为文本问题".
Definition noSignalReason : string := "无明显线索，默认归类为TTS问题".

Definition inferCategory (draft : ObservationDraft) : ClassificationResult :=
  if (ttsScore draft <? textScore draft)%nat then
    {| result_category := text;
       reason := textWinsReason (textScore draft) (textTagScore draft)
                   (textKeywordScore draft) |}
  else if (textScore draft <? ttsScore draft)%nat then
    {| result_category := tts;
       reason := ttsWinsReason (ttsScore draft) (ttsTagScore draft)
                   (ttsKeywordScore draft) |}
  else if (0 <? textTagScore draft)%nat then
    {| result_category := text; reason := tagTieReason |}
  else
    {| result_category := tts; reason := noSignalReason |}.

(** ** The aggregator (src/types.ts, [analysisData]) *)

Module AnalysisData.
Record t := {
  windowDays : option nat;
  currentItems : list Observation;
  previousItems : list Observation;
  totalCount : nat;
  textCount : nat;
  ttsCount : nat;
  topTags : list (string * nat);
  topCourses : list (string * nat);
  topFeelings : list (string * nat);
  dailyTrend : list (JS.DateKey * nat);
}.
End AnalysisData.

(** [forEach] with a body that may throw. *)
Fixpoint forEachM {A S : Type} (body : S -> A -> JS.result S) (l : list A) (s : S)
    : JS.result S :=
  match l with
  | [] => JS.Ok s
  | x :: rest => s' ← body s x; forEachM body rest s'
  end.

Definition windowDays (analysisWindow : AnalysisWindow) : option nat :=
  match analysisWindow with
  | W7d => Some 7
  | W30d => Some 30
  | Wall => None
  end.

(** [now]: the clock reading [new Date()] moved to the last millisecond of
    the local day. *)
Definition now (tza clock : Z) : Z := JS.setHours tza clock 23 59 59 999.

Definition startOfWindow (tza t : Z) (days : nat) : Z :=
  JS.setDate_getDate_plus tza (JS.setHours tza t 0 0 0 0) (- (Z.of_nat days - 1)).

Definition currentStart (tza : Z) (w : AnalysisWindow) (clock : Z) : option Z :=
  days ← windowDays w; Some (startOfWindow tza (now tza clock) days).

Definition previousEnd (tza : Z) (w : AnalysisWindow) (clock : Z) : option Z :=
  start ← currentStart tza w clock; Some (start - 1)%Z.

Definition previousStart (tza : Z) (w : AnalysisWindow) (clock : Z) : option Z :=
  days ← windowDays w; pe ← previousEnd tza w clock; Some (startOfWindow tza pe days).

Definition createdBetween (lo hi : Z) (item : Observation) : bool :=
  JS.date_ge (created_at item) lo && JS.date_le (created_at item) hi.

Definition currentItems (tza : Z) (w : AnalysisWindow) (clock : Z)
    (observations : list Observation) : list Observation :=
  List.filter (fun item =>
    match currentStart tza w clock with
    | None => true
    | Some start => createdBetween start (now tza clock) item
    end) observations.

Definition previousItems (tza : Z) (w : AnalysisWindow) (clock : Z)
    (observations : list Observation) : list Observation :=
  match previousStart tza w clock, previousEnd tza w clock with
  | Some ps, Some pe => List.filter (createdBetween ps pe) observations
  | _, _ => []
  end.

Definition countCategory (c : IssueCategory) (items : list Observation) : nat :=
  length (List.filter (fun item => bool_decide (category item = c)) items).

(** Names that a plain object inherits from [Object.prototype].  For such a
    key [m[k] ?? 0] is not the number 0 (it is the inherited function or
    object), so the counting loops below describe the source only on keys
    outside this list. *)
Definition inheritedNames : list string :=
  ["__proto__"; "constructor"; "hasOwnProperty"; "isPrototypeOf";
   "propertyIsEnumerable"; "toLocaleString"; "toString"; "valueOf";
   "__defineGetter__"; "__defineSetter__"; "__lookupGetter__"; "__lookupSetter__"].

Definition ordinaryKey (k : string) : Prop := k ∉ inheritedNames.

(** [m[k] = (m[k] ?? 0) + 1] *)
Definition bump (m : JS.object string nat) (k : string) : JS.object string nat :=
  JS.set m k (default 0 (JS.get m k) + 1).

Definition tagCountMap (items : list Observation) : JS.object string nat :=
  fold_left (fun m item => fold_left bump (tags item) m) items [].

Definition courseCountMap (items : list Observation) : JS.object string nat :=
  fold_left (fun m item => bump m (course_name item)) items [].

Definition feelingCountMap (items : list Observation) : JS.object string nat :=
  fold_left (fun m item => fold_left bump (feeling_tags item) m) items [].

(** [.sort((a, b) => b[1] - a[1])]: [Array.prototype.sort] is stable, so the
    result is the descending order by count in which entries of equal count
    keep their relative order. *)
Fixpoint insertByCount (x : string * nat) (l : list (string * nat))
    : list (string * nat) :=
  match l with
  | [] => [x]
  | y :: rest => if (x.2 <? y.2)%nat then y :: insertByCount x rest else x :: l
  end.

Definition sortByCountDesc (l : list (string * nat)) : list (string * nat) :=
  foldr insertByCount [] l.

(** [Object.entries(m).sort(...).slice(0, 5)] *)
Definition top5 (m : JS.object string nat) : list (string * nat) :=
  take 5 (sortByCountDesc (JS.entries m)).

Definition topTags (items : list Observation) := top5 (tagCountMap items).
Definition topCourses (items : list Observation) := top5 (courseCountMap items).
Definition topFeelings (items : list Observation) := top5 (feelingCountMap items).

(** *** Daily trend *)

Definition getDateKey (date : JS.Date) : JS.result JS.DateKey := JS.toISODate date.

Definition trendDays (w : AnalysisWindow) : nat := default 14 (windowDays w).

Definition trendStart (tza : Z) (w : AnalysisWindow) (clock : Z) : Z :=
  startOfWindow tza (now tza clock) (trendDays w).

(** The initialisation loop [for (idx = 0; idx < trendDays; idx += 1)]. *)
Definition trendInit (tza : Z) (w : AnalysisWindow) (clock : Z)
    : JS.result (JS.object JS.DateKey nat) :=
  forEachM (fun m idx =>
      let day := JS.setDate_getDate_plus tza (trendStart tza w clock) (Z.of_nat idx) in
      key ← getDateKey (Some day);
      mret (JS.set m key 0))
    (seq 0 (trendDays w)) [].

Definition trendSource (tza : Z) (w : AnalysisWindow) (clock : Z)
    (observations : list Observation) : list Observation :=
  match windowDays w with
  | None => List.filter (fun item => JS.date_ge (created_at item) (trendStart tza w clock))
              (currentItems tza w clock observations)
  | Some _ => currentItems tza w clock observations
  end.

(** [if (key in trendCountMap) { trendCountMap[key] += 1 }] *)
Definition trendStep (m : JS.object JS.DateKey nat) (item : Observation)
    : JS.result (JS.object JS.DateKey nat) :=
  key ← getDateKey (created_at item);
  mret (match JS.get m key with
        | Some n => JS.set m key (n + 1)
        | None => m
        end).

Definition trendCountMap (tza : Z) (w : AnalysisWindow) (clock : Z)
    (observations : list Observation) : JS.result (JS.object JS.DateKey nat) :=
  m ← trendInit tza w clock;
  forEachM trendStep (trendSource tza w clock observations) m.

(** [Object.entries(trendCountMap)]: a date key holds a hyphen and is never
    an array index, so the entries come in creation order. *)
Definition dailyTrend (tza : Z) (w : AnalysisWindow) (clock : Z)
    (observations : list Observation) : JS.result (list (JS.DateKey * nat)) :=
  trendCountMap tza w clock observations.

Definition analysisData (tza : Z) (analysisWindow : AnalysisWindow) (clock : Z)
    (observations : list Observation) : JS.result AnalysisData.t :=
  let current := currentItems tza analysisWindow clock observations in
  trend ← dailyTrend tza analysisWindow clock observations;
  mret {|
    AnalysisData.windowDays := windowDays analysisWindow;
    AnalysisData.currentItems := current;
    AnalysisData.previousItems := previousItems tza analysisWindow clock observations;
    AnalysisData.totalCount := length current;
    AnalysisData.textCount := countCategory text current;
    AnalysisData.ttsCount := countCategory tts current;
    AnalysisData.topTags := topTags current;
    AnalysisData.topCourses := topCourses current;
    AnalysisData.topFeelings := topFeelings current;
    AnalysisData.dailyTrend := trend;
  |}.

(** ** The summary (src/types.ts, [summaryText]) *)

(** [new Map(sessions.map((session) => [session.id, session]))]: a later
    session with the same id replaces an earlier one. *)
Definition sessionMap (sessions : list Session) : gmap string Session :=
  fold_left (fun m session => <[session_id_ session := session]> m) sessions ∅.

Definition periodLabel (analysisWindow : AnalysisWindow) : string :=
  match analysisWindow with
  | W7d => "最近7天"
  | W30d => "最近30天"
  | Wall => "全量数据"
  end.

Definition formatPercent (value : Q) : string :=
  JS.toFixed1 (value * 100)%Q +:+ "%".

Definition noDataText : string := "当前没有数据".
Definition noComparisonText : string := "暂无可比对的上一周期数据".

Definition ratioText (data : AnalysisData.t) : JS.result string :=
  if (0 <? AnalysisData.totalCount data)%nat then
    textRatio ← JS.div (JS.ofCount (AnalysisData.textCount data))
                       (JS.ofCount (AnalysisData.totalCount data));
    ttsRatio ← JS.div (JS.ofCount (AnalysisData.ttsCount data))
                      (JS.ofCount (AnalysisData.totalCount data));
    mret ("文本占比 " +:+ formatPercent textRatio +:+ "，TTS占比 "
          +:+ formatPercent ttsRatio)
  else mret noDataText.

(** Truthiness of [windowDays]: [null] and [0] are falsy. *)
Definition truthy (n : option nat) : bool :=
  match n with
  | Some (S _) => true
  | _ => false
  end.

Definition directionLabel (diff : Q) : string :=
  if Qle_bool 0 diff then "上升" else "下降".

Definition comparedText (previous : nat) (diff : Q) : string :=
  "相较上一周期（" +:+ JS.numToString previous +:+ "条）" +:+ directionLabel diff
  +:+ " " +:+ JS.toFixed1 (Qabs diff) +:+ "%".

Definition compareText (data : AnalysisData.t) : JS.result string :=
  let previous := length (AnalysisData.previousItems data) in
  if truthy (AnalysisData.windowDays data) && (0 <? previous)%nat then
    quotient ← JS.div (JS.ofCount (AnalysisData.totalCount data) - JS.ofCount previous)%Q
                      (JS.ofCount previous);
    mret (comparedText previous (quotient * 100)%Q)
  else mret noComparisonText.

(** [top.map(([key, count], idx) => `${idx + 1}. ${key}（${count}）`).join('；')] *)
Definition rankingText (top : list (string * nat)) : string :=
  if (0 <? length top)%nat then
    JS.join "；"
      (imap (fun idx entry =>
               JS.numToString (idx + 1) +:+ ". " +:+ entry.1 +:+ "（"
               +:+ JS.numToString entry.2 +:+ "）") top)
  else "无".

Definition samples (sessions : list Session) (data : AnalysisData.t) : list string :=
  imap (fun idx item =>
          let reporter :=
            default "未知" (reporter_name <$> sessionMap sessions !! session_id item) in
          JS.numToString (idx + 1) +:+ ") [" +:+ course_name item +:+ "] "
          +:+ issue_description item +:+ "（" +:+ reporter +:+ "）")
       (take 3 (AnalysisData.currentItems data)).

Definition newline : string := String (ascii_of_nat 10) EmptyString.

Definition summaryText (sessions : list Session) (analysisWindow : AnalysisWindow)
    (data : AnalysisData.t) : JS.result string :=
  ratio ← ratioText data;
  compare ← compareText data;
  let sampleLines := samples sessions data in
  mret (JS.join newline
    [ "【TTS问题周报】" +:+ periodLabel analysisWindow;
      "- 共记录 " +:+ JS.numToString (AnalysisData.totalCount data) +:+ " 条问题，"
        +:+ ratio +:+ "。";
      "- 趋势：" +:+ compare +:+ "。";
      "- 高频标签：" +:+ rankingText (AnalysisData.topTags data) +:+ "。";
      "- 高频课程：" +:+ rankingText (AnalysisData.topCourses data) +:+ "。";
      "- 主观感受分布：" +:+ rankingText (AnalysisData.topFeelings data) +:+ "。";
      "- 典型样例："
        +:+ (if (0 <? length sampleLines)%nat then JS.join "；" sampleLines else "无")
        +:+ "。" ]).

(** The report of a reporting session: the aggregation followed by the
    summary built from it. *)
Definition report (tza : Z) (sessions : list Session) (analysisWindow : AnalysisWindow)
    (clock : Z) (observations : list Observation) : JS.result (AnalysisData.t * string) :=
  data ← analysisData tza analysisWindow clock observations;
  summary ← summaryText sessions analysisWindow data;
  mret (data, summary).

(** ** Editing a draft (src/types.ts, [toggleTag]) *)

(** The branch [[...prev.tags, tag]]. *)
Definition addTag (draft : ObservationDraft) (tag : string) : ObservationDraft := {|
  draft_course_name := draft_course_name draft;
  draft_tags := draft_tags draft ++ [tag];
  draft_issue_description := draft_issue_description draft;
  draft_feeling_tags := draft_feeling_tags draft;
  draft_feeling_other := draft_feeling_other draft;
|}.

Definition removeTag (draft : ObservationDraft) (tag : string) : ObservationDraft := {|
  draft_course_name := draft_course_name draft;
  draft_tags := List.filter (fun item => negb (String.eqb item tag)) (draft_tags draft);
  draft_issue_description := draft_issue_description draft;
  draft_feeling_tags := draft_feeling_tags draft;
  draft_feeling_other := draft_feeling_other draft;
|}.

Definition toggleTag (draft : ObservationDraft) (tag : string) : ObservationDraft :=
  if bool_decide (tag ∈ draft_tags draft) then removeTag draft tag else addTag draft tag.

(** ** Notions of the specification *)

(** [kw] occurs as a substring of [s]. *)
Definition occursIn (kw s : string) : Prop :=
  exists before after, s = before +:+ kw +:+ after.

(** [countOf P l n]: exactly [n] positions of [l] hold an element with [P]. *)
Inductive countOf {A : Type} (P : A -> Prop) : list A -> nat -> Prop :=
  | countOf_nil : countOf P [] 0
  | countOf_hit x l n : P x -> countOf P l n -> countOf P (x :: l) (S n)
  | countOf_miss x l n : ~ P x -> countOf P l n -> countOf P (x :: l) n.

(** The scan string in the specification's words: the issue description and
    the tags, joined with a separator, lowercased. *)
Definition scanString (draft : ObservationDraft) : string :=
  JS.toLowerCase
    (draft_issue_description draft +:+ " " +:+ JS.join " " (draft_tags draft)).

Fixpoint spaceFree (s : string) : bool :=
  match s with
  | EmptyString => true
  | String c rest => negb (Ascii.eqb c " ") && spaceFree rest
  end.

(** *** Rankings *)

(** The keys of one ranking dimension, in the order in which the counting
    loop of [analysisData] meets them. *)
Inductive Dimension := ByTag | ByCourse | ByFeeling.

Definition dimensionKeys (dim : Dimension) (items : list Observation) : list string :=
  match dim with
  | ByTag => flat_map tags items
  | ByCourse => map course_name items
  | ByFeeling => flat_map feeling_tags items
  end.

Definition ranking (dim : Dimension) (items : list Observation) : list (string * nat) :=
  match dim with
  | ByTag => topTags items
  | ByCourse => topCourses items
  | ByFeeling => topFeelings items
  end.

Definition countKeys (keys : list string) : JS.object string nat :=
  fold_left bump keys [].

(** How often [k] was met. *)
Definition frequency (keys : list string) (k : string) : nat :=
  count_occ string_dec keys k.

(** The distinct keys in the order of their first occurrence. *)
Fixpoint firstSeen (keys : list string) : list string :=
  match keys with
  | [] => []
  | k :: rest => k :: List.filter (fun k' => negb (String.eqb k' k)) (firstSeen rest)
  end.

(** [x] stands before [y] in [l]. *)
Definition precedes {A : Type} (l : list A) (x y : A) : Prop :=
  exists l1 l2 l3, l = l1 ++ x :: l2 ++ y :: l3.

(** [e1] may stand before [e2] in a ranking drawn from [order]: a larger
    count first, and on equal counts the order of [order]. *)
Definition rankedBefore (order : list (string * nat)) (e1 e2 : string * nat) : Prop :=
  e2.2 < e1.2 \/ (e1.2 = e2.2 /\ precedes order e1 e2).

(** The tie rule as the specification words it: entries of equal count
    stand in the order in which their keys were first met. *)
Definition tiesInFirstSeenOrder (keys : list string) (top : list (string * nat)) : Prop :=
  forall e1 e2, precedes top e1 e2 -> e1.2 = e2.2 -> precedes (firstSeen keys) e1.1 e2.1.

Definition indexOf (e : string * nat) : N := default 0%N (JS.arrayIndex e.1).

(** *** Trend buckets *)

(** The observations of [items] whose date key is [k]. *)
Definition onDay (k : JS.DateKey) (item : Observation) : bool :=
  match created_at item with
  | Some t => (JS.Day t =? k)%Z
  | None => false
  end.

Definition countOnDay (k : JS.DateKey) (items : list Observation) : nat :=
  length (List.filter (onDay k) items).

(** ** Sample inputs *)

Definition sampleDraft (course : string) (draftTags : list string) (description : string)
    : ObservationDraft := {|
  draft_course_name := course;
  draft_tags := draftTags;
  draft_issue_description := description;
  draft_feeling_tags := ["偶尔能感觉到情绪"];
  draft_feeling_other := "";
|}.

Definition praiseDraft : ObservationDraft := sampleDraft "第一课" ["夸奖密度过高"] "太多了".
Definition praiseDraftElsewhere : ObservationDraft := {|
  draft_course_name := "第二课";
  draft_tags := ["夸奖密度过高"];
  draft_issue_description := "太多了";
  draft_feeling_tags := ["其他"];
  draft_feeling_other := "有点吵";
|}.
Definition pauseDraft : ObservationDraft := sampleDraft "第一课" ["断句停顿不合理"] "".
Definition tiedDraft : ObservationDraft := sampleDraft "第一课" ["文本表达别扭"; "重读异常"] "".
Definition otherOnlyDraft : ObservationDraft := addTag emptyObservationDraft "其他".

Definition sampleObservation (course : string) (c : IssueCategory)
    (itemTags feelings : list string) (created : JS.Date) : Observation := {|
  id := "";
  session_id := "s1";
  course_name := course;
  category := c;
  tags := itemTags;
  issue_description := "读得太快";
  feeling_tags := feelings;
  feeling_other := None;
  created_at := created;
|}.

(** 2024-06-15 is day 19889 of the epoch; [sampleClock] is 02:00 UTC on that
    day, 10:00 in a zone eight hours east. *)
Definition sampleClock : Z := 19889 * 86400000 + 2 * 3600000.
Definition utcPlus8 : Z := 8 * 3600000.

Definition numberedCourses : list Observation :=
  [ sampleObservation "2" text ["文本表达别扭"] ["偶尔能感觉到情绪"] (Some sampleClock);
    sampleObservation "1" tts ["语速异常"] ["偶尔能感觉到情绪"] (Some sampleClock) ].

Definition namedCourses : list Observation :=
  [ sampleObservation "拼音" text ["文本表达别扭"] ["偶尔能感觉到情绪"] (Some sampleClock);
    sampleObservation "儿歌" tts ["语速异常"; "重读异常"] ["其他"] (Some sampleClock);
    sampleObservation "儿歌" tts ["语速异常"] ["偶尔能感觉到情绪"] None ].

(** A log with two observations in the current 7-day window of
    [sampleClock], one in the previous window and one with an unreadable
    timestamp. *)
Definition sampleLog : list Observation :=
  [ sampleObservation "拼音" tts ["语速异常"] ["其他"] (Some sampleClock);
    sampleObservation "儿歌" text ["文本表达别扭"] ["偶尔能感觉到情绪"]
      (Some (sampleClock - 5 * 3600000)%Z);
    sampleObservation "儿歌" tts ["重读异常"] ["偶尔能感觉到情绪"]
      (Some (sampleClock - 10 * 86400000)%Z);
    sampleObservation "儿歌" tts ["重读异常"] ["偶尔能感觉到情绪"] None ].


(** ** Further parts of the application (src/types.ts) *)

(** [toggleFeeling]: the feeling is removed when present and appended
    otherwise; the free text is kept only while "其他" is selected. *)
Definition toggleFeeling (draft : ObservationDraft) (feeling : string)
    : ObservationDraft :=
  let nextFeelingTags :=
    if bool_decide (feeling ∈ draft_feeling_tags draft)
    then List.filter (fun item => negb (String.eqb item feeling))
           (draft_feeling_tags draft)
    else draft_feeling_tags draft ++ [feeling] in
  {| draft_course_name := draft_course_name draft;
     draft_tags := draft_tags draft;
     draft_issue_description := draft_issue_description draft;
     draft_feeling_tags := nextFeelingTags;
     draft_feeling_other :=
       if bool_decide (feelingOtherOption ∈ nextFeelingTags)
       then draft_feeling_other draft else "" |}.

(** [escapeCsv]: the value with every double quote doubled ([replaceAll]),
    wrapped in a pair of double quotes. *)
Definition quote : ascii := ascii_of_nat 34.

Fixpoint doubleQuotes (value : string) : string :=
  match value with
  | EmptyString => EmptyString
  | String c rest =>
      if Ascii.eqb c quote then String quote (String quote (doubleQuotes rest))
      else String c (doubleQuotes rest)
  end.

Definition escapeCsv (value : string) : string :=
  String quote (doubleQuotes value +:+ String quote EmptyString).

(** One line of [exportCsv]: [row.map((cell) => escapeCsv(String(cell))).join(',')] *)
Definition csvRow (row : list string) : string :=
  JS.join "," (map escapeCsv row).

(** [[...new Set(values)]]: a [Set] keeps its elements in insertion order and
    ignores a value it already holds. *)
Definition setToArray (values : list string) : list string :=
  fold_left (fun acc value => if bool_decide (value ∈ acc) then acc else acc ++ [value])
    values [].

(** [.filter(Boolean)] on strings drops the empty string. *)
Definition nonEmpty (s : string) : bool := negb (String.eqb s "").

Definition courseOptions (observations : list Observation) : list string :=
  setToArray (List.filter nonEmpty (map course_name observations)).

Definition reporterOptions (sessions : list Session) (observations : list Observation)
    : list string :=
  setToArray
    (List.filter nonEmpty
       (map (fun item =>
               default "" (reporter_name <$> sessionMap sessions !! session_id item))
          observations)).

Definition tagOptions (observations : list Observation) : list string :=
  setToArray (flat_map tags observations).

(** [observationCountBySession] and its reading [counts[id] ?? 0]. *)
Definition observationCountBySession (observations : list Observation)
    : JS.object string nat :=
  fold_left (fun counts item => bump counts (session_id item)) observations [].

Definition relatedCount (observations : list Observation) (sessionId : string) : nat :=
  default 0 (JS.get (observationCountBySession observations) sessionId).

(** The local-storage branch of [handleDeleteProfile]: the profile and the
    observations that point to it are filtered out. *)
Definition deleteProfile (profileId : string)
    (state : list Session * list Observation) : list Session * list Observation :=
  (List.filter (fun item => negb (String.eqb (session_id_ item) profileId)) state.1,
   List.filter (fun item => negb (String.eqb (session_id item) profileId)) state.2).

(** [maxTrendCount]: [Math.max(1, ...values)] *)
Definition maxTrendCount (trend : list (JS.DateKey * nat)) : nat :=
  fold_left Nat.max (map snd trend) 1.

(** [stats] of the results page. *)
Definition statsTotal (observations : list Observation) : nat := length observations.
Definition statsTextCount (observations : list Observation) : nat :=
  countCategory text observations.
Definition statsTtsCount (observations : list Observation) : nat :=
  countCategory tts observations.

(** *** Notions used to state the further properties *)

(** A reader for one exported line: cells in double quotes, a doubled quote
    inside a cell standing for one quote, cells separated by commas. *)
Inductive CsvState := AtCellStart | InCell | AfterQuote.

Fixpoint parseCsv (st : CsvState) (cell : string) (cells : list string) (s : string)
    : option (list string) :=
  match s with
  | EmptyString =>
      match st with
      | AfterQuote => Some (cells ++ [cell])
      | AtCellStart => match cells with [] => Some [] | _ => None end
      | InCell => None
      end
  | String c rest =>
      match st with
      | AtCellStart =>
          if Ascii.eqb c quote then parseCsv InCell EmptyString cells rest else None
      | InCell =>
          if Ascii.eqb c quote then parseCsv AfterQuote cell cells rest
          else parseCsv InCell (cell +:+ String c EmptyString) cells rest
      | AfterQuote =>
          if Ascii.eqb c quote
          then parseCsv InCell (cell +:+ String quote EmptyString) cells rest
          else if Ascii.eqb c ","
               then parseCsv AtCellStart EmptyString (cells ++ [cell]) rest
               else None
      end
  end.

Definition parseCsvRow (s : string) : option (list string) :=
  parseCsv AtCellStart EmptyString [] s.

(** The sum of the bucket values of a trend series. *)
Definition trendTotal (trend : list (JS.DateKey * nat)) : nat :=
  fold_right (fun e acc => e.2 + acc) 0 trend.

(** The source observations whose date key is one of [keys]. *)
Definition onDays (keys : list JS.DateKey) (item : Observation) : bool :=
  existsb (fun k => onDay k item) keys.


(** A canonical tag that belongs to one tag set only and spells no keyword
    of the other domain. *)
Definition ttsOnly (tag : string) : bool :=
  negb (bool_decide (tag ∈ textTagSet)) && bool_decide (tag ∈ ttsTagSet)
  && forallb (fun k => negb (JS.includes (JS.toLowerCase tag) k)) textKeywords.

Definition textOnly (tag : string) : bool :=
  negb (bool_decide (tag ∈ ttsTagSet)) && bool_decide (tag ∈ textTagSet)
  && forallb (fun k => negb (JS.includes (JS.toLowerCase tag) k)) ttsKeywords.

(** ** Properties of the classifier *)

Section Strings.
Local Open Scope string_scope.

Lemma append_nil (b : string) : "" +:+ b = b.
Proof. reflexivity. Qed.

Lemma append_cons (c : ascii) (a b : string) :
  String c a +:+ b = String c (a +:+ b).
Proof. reflexivity. Qed.

Lemma append_assoc (a b c : string) : (a +:+ b) +:+ c = a +:+ (b +:+ c).
Proof.
  induction a as [|x a IH]; [reflexivity|].
  rewrite !append_cons. now f_equal.
Qed.

Lemma startsWith_iff (s kw : string) :
  JS.startsWith s kw = true <-> exists after, s = kw +:+ after.
Proof.
  revert s. induction kw as [|c kw IH]; intros s; simpl.
  - split; [intros _; now exists s | reflexivity].
  - destruct s as [|d s].
    + split; [discriminate | intros [after H]; discriminate].
    + rewrite andb_true_iff, IH, Ascii.eqb_eq. split.
      * intros [-> [after ->]]. now exists after.
      * intros [after H]. rewrite append_cons in H.
        injection H as -> ->. split; [reflexivity | now exists after].
Qed.

Lemma includes_iff (s kw : string) : JS.includes s kw = true <-> occursIn kw s.
Proof.
  induction s as [|c s IH]; cbn [JS.includes].
  - rewrite orb_false_r, startsWith_iff. split.
    + intros [after H]. now exists "", after.
    + intros (before & after & H). destruct before; [|discriminate].
      now exists after.
  - rewrite orb_true_iff, startsWith_iff, IH. split.
    + intros [[after H]|(before & after & H)].
      * now exists "", after.
      * exists (String c before), after. rewrite append_cons. now rewrite H.
    + intros (before & after & H). destruct before as [|d before].
      * left. now exists after.
      * right. exists before, after. rewrite append_cons in H. congruence.
Qed.

Lemma toLowerCase_append (a b : string) :
  JS.toLowerCase (a +:+ b) = JS.toLowerCase a +:+ JS.toLowerCase b.
Proof.
  induction a as [|x a IH]; [reflexivity|].
  rewrite append_cons. simpl. rewrite append_cons. now f_equal.
Qed.

Lemma startsWith_before_space (kw a b : string) :
  spaceFree kw = true ->
  JS.startsWith (a +:+ " " +:+ b) kw = JS.startsWith a kw.
Proof.
  revert a. induction kw as [|c kw IH]; intros a Hfree; [reflexivity|].
  simpl in Hfree. apply andb_true_iff in Hfree as [Hc Hkw].
  destruct a as [|d a].
  - rewrite append_nil, append_cons. simpl.
    apply negb_true_iff in Hc. now rewrite Hc.
  - rewrite append_cons. simpl. now rewrite IH.
Qed.

Lemma includes_across_space (kw a b : string) :
  spaceFree kw = true ->
  JS.includes (a +:+ " " +:+ b) kw = JS.includes a kw || JS.includes b kw.
Proof.
  intros Hfree. induction a as [|d a IH].
  - pose proof (startsWith_before_space kw "" b Hfree) as Hp.
    rewrite append_nil in *. change (" " +:+ b) with (String " " b) in *.
    cbn [JS.includes]. now rewrite Hp, orb_false_r.
  - pose proof (startsWith_before_space kw (String d a) b Hfree) as Hp.
    rewrite (append_cons d a (" " +:+ b)) in *. cbn [JS.includes].
    rewrite Hp, IH. now rewrite !orb_assoc.
Qed.
End Strings.

Section Counting.
Context {A : Type}.

Lemma countOf_filter (P : A -> Prop) (f : A -> bool) (l : list A) :
  (forall x, f x = true <-> P x) -> countOf P l (length (List.filter f l)).
Proof.
  intros Hf. induction l as [|x l IH]; simpl; [constructor|].
  destruct (f x) eqn:Hx; simpl.
  - apply countOf_hit; [now apply Hf | exact IH].
  - apply countOf_miss; [|exact IH].
    intros HP. apply Hf in HP. congruence.
Qed.

Lemma countOf_unique (P : A -> Prop) (l : list A) (n m : nat) :
  countOf P l n -> countOf P l m -> n = m.
Proof.
  intros Hn. revert m. induction Hn; intros m Hm; inversion Hm; subst;
    try reflexivity; try contradiction; auto.
Qed.

Lemma filter_length_le (f : A -> bool) (l : list A) :
  length (List.filter f l) <= length l.
Proof. induction l as [|x l IH]; simpl; [lia|]. destruct (f x); simpl; lia. Qed.
End Counting.

Lemma getMatchScore_filter (s : string) (keywords : list string) :
  getMatchScore s keywords = length (List.filter (JS.includes s) keywords).
Proof.
  unfold getMatchScore.
  enough (H : forall acc,
    fold_left (fun sum keyword => if JS.includes s keyword then sum + 1 else sum)
      keywords acc = acc + length (List.filter (JS.includes s) keywords))
    by apply (H 0).
  induction keywords as [|k keywords IH]; intros acc; simpl; [lia|].
  rewrite IH. destruct (JS.includes s k); simpl; lia.
Qed.

Lemma getMatchScore_ext (s s' : string) (keywords : list string) :
  Forall (fun k => JS.includes s' k = JS.includes s k) keywords ->
  getMatchScore s' keywords = getMatchScore s keywords.
Proof.
  intros H. rewrite !getMatchScore_filter. f_equal.
  induction H as [|k keywords Hk _ IH]; simpl; [reflexivity|].
  now rewrite Hk, IH.
Qed.

Lemma mergedText_scanString (draft : ObservationDraft) :
  mergedText draft = scanString draft.
Proof. reflexivity. Qed.


(** C2. The four sub-scores against the reference counts: the tag scores
    count the draft tags that belong to the canonical tag lists, the keyword
    scores count the keywords that occur as a substring of the lowercased
    scan string, each keyword at most once. *)
Theorem subscores_match_reference (draft : ObservationDraft) :
  countOf (fun tag => tag ∈ textIssueTags) (draft_tags draft) (textTagScore draft) /\
  countOf (fun tag => tag ∈ ttsIssueTags) (draft_tags draft) (ttsTagScore draft) /\
  countOf (fun kw => occursIn kw (scanString draft)) textKeywords
    (textKeywordScore draft) /\
  countOf (fun kw => occursIn kw (scanString draft)) ttsKeywords
    (ttsKeywordScore draft) /\
  textKeywordScore draft <= length textKeywords /\
  ttsKeywordScore draft <= length ttsKeywords.
Proof.
  unfold textTagScore, ttsTagScore, textKeywordScore, ttsKeywordScore.
  rewrite !getMatchScore_filter.
  repeat split.
  - apply countOf_filter. intros tag. rewrite bool_decide_eq_true.
    unfold textTagSet. now rewrite elem_of_list_to_set.
  - apply countOf_filter. intros tag. rewrite bool_decide_eq_true.
    unfold ttsTagSet. now rewrite elem_of_list_to_set.
  - apply countOf_filter. intros kw. exact (includes_iff (mergedText draft) kw).
  - apply countOf_filter. intros kw. exact (includes_iff (mergedText draft) kw).
  - apply filter_length_le.
  - apply filter_length_le.
Qed.

(** C9. [inferCategory] reads only the tags and the issue description: two
    drafts that agree on both get the same category and the same reason,
    whatever their course name and feelings. *)
Theorem inferCategory_reads_tags_and_description (d1 d2 : ObservationDraft) :
  draft_tags d1 = draft_tags d2 ->
  draft_issue_description d1 = draft_issue_description d2 ->
  inferCategory d1 = inferCategory d2.
Proof.
  intros Htags Hdesc.
  unfold inferCategory, textScore, ttsScore, textKeywordScore, ttsKeywordScore,
    textTagScore, ttsTagScore, mergedText.
  now rewrite Htags, Hdesc.
Qed.


Lemma inferCategory_reads_tags_and_description_witness :
  draft_tags praiseDraft = draft_tags praiseDraftElsewhere /\
  draft_issue_description praiseDraft = draft_issue_description praiseDraftElsewhere /\
  draft_course_name praiseDraft <> draft_course_name praiseDraftElsewhere /\
  inferCategory praiseDraft = inferCategory praiseDraftElsewhere.
Proof.
  split; [reflexivity|]. split; [reflexivity|]. split; [discriminate|].
  apply inferCategory_reads_tags_and_description; reflexivity.
Defined.

(** *** The shared tag "其他" *)

Section OtherTag.
Local Open Scope string_scope.

Lemma join_snoc (l : list string) (x : string) :
  JS.join " " (l ++ [x]) =
  match l with
  | [] => x
  | _ :: _ => JS.join " " l +:+ " " +:+ x
  end.
Proof.
  unfold JS.join. induction l as [|y l IH]; [reflexivity|].
  destruct l as [|z l]; [reflexivity|].
  change (String.concat " " ((y :: z :: l) ++ [x]))
    with (y +:+ " " +:+ String.concat " " ((z :: l) ++ [x])).
  rewrite IH.
  change (String.concat " " (y :: z :: l))
    with (y +:+ " " +:+ String.concat " " (z :: l)).
  now rewrite !append_assoc.
Qed.

Lemma keywords_plain :
  Forall (fun k => spaceFree k = true /\ JS.includes "其他" k = false /\
                   JS.includes "" k = false)
    (textKeywords ++ ttsKeywords).
Proof. repeat constructor. Qed.

Lemma mergedText_addTag_other (draft : ObservationDraft) :
  exists a b b',
    mergedText draft = a +:+ " " +:+ b /\
    mergedText (addTag draft "其他") = a +:+ " " +:+ b' /\
    forall k, In k (textKeywords ++ ttsKeywords) ->
      JS.includes b' k = JS.includes b k.
Proof.
  pose proof keywords_plain as Hplain. rewrite Forall_forall in Hplain.
  unfold mergedText, addTag; simpl draft_tags; simpl draft_issue_description.
  change (JS.join " " [?x; ?y]) with (x +:+ " " +:+ y).
  rewrite join_snoc.
  destruct (draft_tags draft) as [|t ts] eqn:Htags.
  - exists (JS.toLowerCase (draft_issue_description draft)), "", "其他".
    rewrite !toLowerCase_append. repeat split.
    intros k Hk. destruct (Hplain k) as (_ & H1 & H2).
    { now apply list_elem_of_In. }
    now rewrite H1, H2.
  - exists (JS.toLowerCase (draft_issue_description draft)),
      (JS.toLowerCase (JS.join " " (t :: ts))),
      (JS.toLowerCase (JS.join " " (t :: ts)) +:+ " " +:+ "其他").
    rewrite !toLowerCase_append. repeat split.
    intros k Hk. destruct (Hplain k) as (Hfree & H1 & _).
    { now apply list_elem_of_In. }
    rewrite (includes_across_space k _ _ Hfree), H1. apply orb_false_r.
Qed.

Lemma keywordScore_addTag_other (draft : ObservationDraft) (keywords : list string) :
  (forall k, In k keywords -> In k (textKeywords ++ ttsKeywords)) ->
  getMatchScore (mergedText (addTag draft "其他")) keywords =
  getMatchScore (mergedText draft) keywords.
Proof.
  intros Hsub. destruct (mergedText_addTag_other draft) as (a & b & b' & -> & -> & Hb).
  pose proof keywords_plain as Hplain. rewrite Forall_forall in Hplain.
  apply getMatchScore_ext. apply Forall_forall. intros k Hk.
  apply list_elem_of_In in Hk. specialize (Hsub k Hk).
  destruct (Hplain k) as (Hfree & _); [now apply list_elem_of_In|].
  rewrite !(includes_across_space k _ _ Hfree). now rewrite Hb.
Qed.

Lemma tagScore_addTag (tagSet : gset string) (l : list string) (tag : string) :
  tag ∈ tagSet ->
  length (List.filter (fun t => bool_decide (t ∈ tagSet)) (l ++ [tag])) =
  length (List.filter (fun t => bool_decide (t ∈ tagSet)) l) + 1.
Proof.
  intros Hin. rewrite List.filter_app, length_app. simpl.
  now rewrite bool_decide_eq_true_2.
Qed.
End OtherTag.

Lemma category_by_scores (draft : ObservationDraft) :
  result_category (inferCategory draft) =
  if (ttsScore draft <? textScore draft)%nat then text
  else if (textScore draft <? ttsScore draft)%nat then tts
  else if (0 <? textTagScore draft)%nat then text else tts.
Proof.
  unfold inferCategory.
  destruct (ttsScore draft <? textScore draft)%nat; [reflexivity|].
  destruct (textScore draft <? ttsScore draft)%nat; [reflexivity|].
  now destruct (0 <? textTagScore draft)%nat.
Qed.

(** C3, as stated, fails: on the empty draft the scores are tied with no text
    tag, so the category is [tts]; once "其他" is added the scores are still
    tied but a text tag is present, and the category becomes [text]. *)
Lemma other_tag_changes_category :
  result_category (inferCategory emptyObservationDraft) = tts /\
  result_category (inferCategory (addTag emptyObservationDraft "其他")) = text.
Proof. split; vm_compute; reflexivity. Qed.

(** C3, amended.  "其他" belongs to both canonical tag sets; adding it to a
    draft raises both tag scores by one and leaves both keyword scores
    unchanged; the category is unchanged when the weighted scores differ or
    the draft already holds a text tag; from a tie without a text tag the
    category moves from [tts] to [text]. *)
Theorem other_tag_effect (draft : ObservationDraft) :
  let draft' := addTag draft "其他" in
  "其他" ∈ textTagSet /\ "其他" ∈ ttsTagSet /\
  textTagScore draft' = textTagScore draft + 1 /\
  ttsTagScore draft' = ttsTagScore draft + 1 /\
  textKeywordScore draft' = textKeywordScore draft /\
  ttsKeywordScore draft' = ttsKeywordScore draft /\
  (textScore draft <> ttsScore draft \/ 0 < textTagScore draft ->
     result_category (inferCategory draft') = result_category (inferCategory draft)) /\
  (textScore draft = ttsScore draft -> textTagScore draft = 0 ->
     result_category (inferCategory draft) = tts /\
     result_category (inferCategory draft') = text).
Proof.
  intros draft'.
  assert (Htext : "其他" ∈ textTagSet)
    by (apply (proj1 (bool_decide_eq_true _)); vm_compute; reflexivity).
  assert (Htts : "其他" ∈ ttsTagSet)
    by (apply (proj1 (bool_decide_eq_true _)); vm_compute; reflexivity).
  assert (H1 : textTagScore draft' = textTagScore draft + 1)
    by (apply tagScore_addTag, Htext).
  assert (H2 : ttsTagScore draft' = ttsTagScore draft + 1)
    by (apply tagScore_addTag, Htts).
  assert (H3 : textKeywordScore draft' = textKeywordScore draft).
  { apply keywordScore_addTag_other. intros k Hk. apply in_or_app. now left. }
  assert (H4 : ttsKeywordScore draft' = ttsKeywordScore draft).
  { apply keywordScore_addTag_other. intros k Hk. apply in_or_app. now right. }
  assert (Hs1 : textScore draft' = textScore draft + 2) by (unfold textScore; lia).
  assert (Hs2 : ttsScore draft' = ttsScore draft + 2) by (unfold ttsScore; lia).
  repeat (split; [assumption|]).
  rewrite !category_by_scores, Hs1, Hs2, H1.
  split.
  - intros Hcase.
    destruct (Nat.ltb_spec (ttsScore draft + 2) (textScore draft + 2)),
      (Nat.ltb_spec (ttsScore draft) (textScore draft)); try lia; try reflexivity.
    destruct (Nat.ltb_spec (textScore draft + 2) (ttsScore draft + 2)),
      (Nat.ltb_spec (textScore draft) (ttsScore draft)); try lia; try reflexivity.
    destruct (Nat.ltb_spec 0 (textTagScore draft + 1)),
      (Nat.ltb_spec 0 (textTagScore draft)); try lia; reflexivity.
  - intros Heq Hzero. rewrite Heq, Hzero, Nat.ltb_irrefl.
    destruct (Nat.ltb_spec (ttsScore draft + 2) (ttsScore draft + 2)); [lia|].
    split; reflexivity.
Qed.

Lemma other_tag_effect_witness :
  (textScore praiseDraft <> ttsScore praiseDraft \/ 0 < textTagScore praiseDraft) /\
  result_category (inferCategory (addTag praiseDraft "其他")) =
  result_category (inferCategory praiseDraft).
Proof.
  assert (H : textScore praiseDraft <> ttsScore praiseDraft \/
              0 < textTagScore praiseDraft) by (right; vm_compute; lia).
  split; [exact H|].
  destruct (other_tag_effect praiseDraft) as (_ & _ & _ & _ & _ & _ & Hsame & _).
  exact (Hsame H).
Defined.

(** ** Properties of the aggregator *)

(** *** Local days in a zone of constant offset *)

Section LocalDays.
Local Open Scope Z_scope.
Variable tza : Z.

Lemma LocalTime_UTC (t : Z) : JS.LocalTime tza (JS.UTC tza t) = t.
Proof. unfold JS.LocalTime, JS.UTC. lia. Qed.

Lemma Day_MakeDate (day time : Z) :
  0 <= time < JS.msPerDay -> JS.Day (JS.MakeDate day time) = day.
Proof.
  intros Htime. unfold JS.Day, JS.MakeDate.
  rewrite Z.div_add_l by (unfold JS.msPerDay; lia).
  rewrite Z.div_small by exact Htime. lia.
Qed.

Lemma TimeWithinDay_MakeDate (day time : Z) :
  0 <= time < JS.msPerDay -> JS.TimeWithinDay (JS.MakeDate day time) = time.
Proof.
  intros Htime. unfold JS.TimeWithinDay, JS.MakeDate.
  rewrite Z.add_comm, Z_mod_plus_full. now apply Z.mod_small.
Qed.

Lemma Day_bounds (t : Z) :
  JS.MakeDate (JS.Day t) 0 <= t <= JS.MakeDate (JS.Day t) 86399999.
Proof.
  unfold JS.MakeDate, JS.Day, JS.msPerDay.
  pose proof (Z.div_mod t 86400000 ltac:(lia)) as Hdm.
  pose proof (Z.mod_pos_bound t 86400000 ltac:(lia)) as Hb. lia.
Qed.

Lemma Day_between (d t : Z) :
  JS.MakeDate d 0 <= t <= JS.MakeDate d 86399999 -> JS.Day t = d.
Proof.
  unfold JS.MakeDate, JS.Day, JS.msPerDay. intros H.
  symmetry. apply (Z.div_unique t 86400000 d (t - d * 86400000)); lia.
Qed.

Lemma setHours_local (t h m s ms : Z) :
  JS.LocalTime tza (JS.setHours tza t h m s ms) =
  JS.MakeDate (JS.Day (JS.LocalTime tza t)) (JS.MakeTime h m s ms).
Proof. unfold JS.setHours. apply LocalTime_UTC. Qed.

Lemma now_local (clock : Z) :
  JS.LocalTime tza (now tza clock) =
  JS.MakeDate (JS.Day (JS.LocalTime tza clock)) 86399999.
Proof. unfold now. now rewrite setHours_local. Qed.

Lemma now_day (clock : Z) :
  JS.Day (JS.LocalTime tza (now tza clock)) = JS.Day (JS.LocalTime tza clock).
Proof. rewrite now_local. apply Day_MakeDate. unfold JS.msPerDay. lia. Qed.

Lemma startOfWindow_local (t : Z) (days : nat) :
  JS.LocalTime tza (startOfWindow tza t days) =
  JS.MakeDate (JS.Day (JS.LocalTime tza t) - (Z.of_nat days - 1)) 0.
Proof.
  unfold startOfWindow, JS.setDate_getDate_plus.
  rewrite LocalTime_UTC, setHours_local.
  change (JS.MakeTime 0 0 0 0) with 0.
  rewrite Day_MakeDate, TimeWithinDay_MakeDate by (unfold JS.msPerDay; lia).
  reflexivity.
Qed.

Lemma plusDays_local (t k : Z) :
  JS.LocalTime tza (JS.setDate_getDate_plus tza t k) =
  JS.LocalTime tza t + k * JS.msPerDay.
Proof.
  unfold JS.setDate_getDate_plus. rewrite LocalTime_UTC.
  unfold JS.MakeDate, JS.Day, JS.TimeWithinDay.
  pose proof (Z.div_mod (JS.LocalTime tza t) JS.msPerDay
                ltac:(unfold JS.msPerDay; lia)) as Hdm.
  lia.
Qed.
End LocalDays.


(** *** The two comparison windows *)

Section Windows.
Local Open Scope Z_scope.

Lemma createdBetween_iff (lo hi : Z) (item : Observation) :
  createdBetween lo hi item = true <->
  exists t, created_at item = Some t /\ lo <= t <= hi.
Proof.
  unfold createdBetween, JS.date_ge, JS.date_le.
  destruct (created_at item) as [t|].
  - rewrite andb_true_iff, !Z.leb_le. split.
    + intros H. exists t. split; [reflexivity | lia].
    + intros (t' & [= <-] & H). lia.
  - split; [discriminate | intros (t' & [=] & _)].
Qed.

Lemma windowDays_positive (w : AnalysisWindow) (days : nat) :
  windowDays w = Some days -> 1 <= Z.of_nat days.
Proof. destruct w; intros [= <-]; lia. Qed.

Lemma startOfWindow_value (tza t : Z) (days : nat) :
  startOfWindow tza t days =
  (JS.Day (JS.LocalTime tza t) - (Z.of_nat days - 1)) * 86400000 - tza.
Proof.
  pose proof (startOfWindow_local tza t days) as H.
  unfold JS.LocalTime at 1 in H. unfold JS.MakeDate in H.
  change JS.msPerDay with 86400000 in H. lia.
Qed.

Lemma now_value (tza clock : Z) :
  now tza clock = JS.Day (JS.LocalTime tza clock) * 86400000 + 86399999 - tza.
Proof.
  pose proof (now_local tza clock) as H.
  unfold JS.LocalTime at 1 in H. unfold JS.MakeDate in H.
  change JS.msPerDay with 86400000 in H. lia.
Qed.



End Windows.

(** *** Plain objects *)

Section ObjectLemmas.
Context {K V : Type} `{EqDecision K}.
Implicit Types (o : JS.object K V) (k : K) (v : V).

Lemma get_set o k v k' :
  JS.get (JS.set o k v) k' = if decide (k' = k) then Some v else JS.get o k'.
Proof.
  induction o as [|[k0 v0] o IH]; simpl.
  - destruct (decide (k' = k)); reflexivity.
  - destruct (decide (k = k0)) as [->|Hne]; simpl.
    + destruct (decide (k' = k0)); reflexivity.
    + destruct (decide (k' = k0)) as [->|Hne'].
      * destruct (decide (k0 = k)); [congruence | reflexivity].
      * exact IH.
Qed.


Lemma keys_set_present o k v :
  In k (map fst o) -> map fst (JS.set o k v) = map fst o.
Proof.
  induction o as [|[k0 v0] o IH]; simpl; [tauto|].
  intros Hin. destruct (decide (k = k0)) as [->|Hne]; simpl; [reflexivity|].
  f_equal. apply IH. destruct Hin; [congruence | assumption].
Qed.

Lemma set_absent o k v : ~ In k (map fst o) -> JS.set o k v = o ++ [(k, v)].
Proof.
  induction o as [|[k0 v0] o IH]; simpl; [reflexivity|].
  intros Hnot. destruct (decide (k = k0)) as [->|Hne]; [tauto|].
  f_equal. apply IH. tauto.
Qed.

Lemma set_tabulate (f : K -> V) (ks : list K) k v :
  List.NoDup ks -> In k ks ->
  JS.set (map (fun k' => (k', f k')) ks) k v =
  map (fun k' => (k', if decide (k' = k) then v else f k')) ks.
Proof.
  intros Hnd. induction Hnd as [|k0 ks Hnot Hnd IH]; simpl; [tauto|].
  intros Hin. destruct (decide (k = k0)) as [->|Hne].
  - destruct (decide (k0 = k0)); [|congruence]. f_equal.
    apply map_ext_in. intros k' Hk'.
    destruct (decide (k' = k0)) as [->|_]; [tauto | reflexivity].
  - destruct (decide (k0 = k)); [congruence|]. f_equal.
    apply IH. destruct Hin; [congruence | assumption].
Qed.

Lemma get_tabulate (f : K -> V) (ks : list K) k :
  JS.get (map (fun k' => (k', f k')) ks) k =
  if decide (k ∈ ks) then Some (f k) else None.
Proof.
  induction ks as [|k0 ks IH]; simpl.
  - destruct (decide (k ∈ [])) as [Hin|_]; [|reflexivity].
    now apply elem_of_nil in Hin.
  - destruct (decide (k = k0)) as [->|Hne].
    + destruct (decide (k0 ∈ k0 :: ks)) as [_|Hnot]; [reflexivity|].
      exfalso. apply Hnot. now left.
    + rewrite IH.
      destruct (decide (k ∈ ks)) as [Hin|Hnot],
        (decide (k ∈ k0 :: ks)) as [Hin'|Hnot']; try reflexivity.
      * exfalso. apply Hnot'. now right.
      * exfalso. apply elem_of_cons in Hin' as [?|?]; [congruence | tauto].
Qed.
End ObjectLemmas.

(** *** Counting keys *)

Section CountKeys.
Implicit Types (keys : list string) (k : string).

Lemma firstSeen_In keys k : In k (firstSeen keys) <-> In k keys.
Proof.
  induction keys as [|x keys IH]; simpl; [tauto|].
  rewrite List.filter_In, IH, negb_true_iff, String.eqb_neq.
  destruct (string_dec x k); intuition congruence.
Qed.

Lemma firstSeen_NoDup keys : List.NoDup (firstSeen keys).
Proof.
  induction keys as [|x keys IH]; simpl; constructor.
  - rewrite List.filter_In, negb_true_iff, String.eqb_neq. tauto.
  - now apply List.NoDup_filter.
Qed.

Lemma firstSeen_snoc keys k :
  firstSeen (keys ++ [k]) =
  if decide (k ∈ keys) then firstSeen keys else firstSeen keys ++ [k].
Proof.
  induction keys as [|x keys IH]; simpl.
  - destruct (decide (k ∈ [])) as [Hin|_]; [|reflexivity].
    now apply elem_of_nil in Hin.
  - rewrite IH. destruct (decide (k ∈ keys)) as [Hin|Hnot].
    + destruct (decide (k ∈ x :: keys)) as [_|Hnot']; [reflexivity|].
      exfalso. apply Hnot'. now right.
    + rewrite List.filter_app. simpl.
      destruct (decide (k ∈ x :: keys)) as [Hin'|Hnot'].
      * apply elem_of_cons in Hin' as [->|Hin']; [|tauto].
        rewrite String.eqb_refl. simpl. now rewrite app_nil_r.
      * destruct (String.eqb_spec k x) as [->|_]; [|reflexivity].
        exfalso. apply Hnot'. now left.
Qed.

Lemma frequency_snoc keys k k' :
  frequency (keys ++ [k]) k' =
  if decide (k' = k) then frequency keys k' + 1 else frequency keys k'.
Proof.
  unfold frequency. rewrite count_occ_app. simpl.
  destruct (string_dec k k'), (decide (k' = k)); try congruence; lia.
Qed.

Lemma frequency_absent keys k : ~ In k keys -> frequency keys k = 0.
Proof. apply count_occ_not_In. Qed.

Lemma frequency_positive keys k : In k keys -> 0 < frequency keys k.
Proof. apply count_occ_In. Qed.

(** The table built by the counting loop: one property per distinct key, in
    the order of first occurrence, holding the key's frequency. *)
Lemma countKeys_tabulate keys :
  countKeys keys = map (fun k => (k, frequency keys k)) (firstSeen keys).
Proof.
  induction keys as [|k keys IH] using rev_ind; [reflexivity|].
  unfold countKeys in *. rewrite fold_left_app. simpl. rewrite IH.
  unfold bump. rewrite get_tabulate, firstSeen_snoc.
  destruct (decide (k ∈ keys)) as [Hin|Hnot].
  - apply list_elem_of_In in Hin.
    destruct (decide (k ∈ firstSeen keys)) as [_|Hn];
      [|exfalso; apply Hn; now apply list_elem_of_In, firstSeen_In].
    simpl. rewrite set_tabulate;
      [|apply firstSeen_NoDup | now apply firstSeen_In].
    apply map_ext. intros k'. rewrite frequency_snoc.
    destruct (decide (k' = k)) as [->|]; reflexivity.
  - rewrite list_elem_of_In in Hnot.
    destruct (decide (k ∈ firstSeen keys)) as [Hn|_];
      [exfalso; apply Hnot; now apply firstSeen_In, list_elem_of_In|].
    simpl. rewrite set_absent.
    + rewrite map_app. simpl. f_equal.
      * apply map_ext_in. intros k' Hk'. rewrite frequency_snoc.
        destruct (decide (k' = k)) as [->|]; [|reflexivity].
        apply (proj1 (firstSeen_In _ _)) in Hk'. contradiction.
      * rewrite frequency_snoc, frequency_absent by assumption.
        destruct (decide (k = k)); [reflexivity | congruence].
    + rewrite map_map. simpl. rewrite map_id. now rewrite firstSeen_In.
Qed.

Lemma fold_bump_flat_map {A : Type} (f : A -> list string) (items : list A)
    (m : JS.object string nat) :
  fold_left (fun m item => fold_left bump (f item) m) items m =
  fold_left bump (flat_map f items) m.
Proof.
  revert m. induction items as [|item items IH]; intros m; simpl; [reflexivity|].
  now rewrite fold_left_app, IH.
Qed.

Lemma fold_bump_map {A : Type} (f : A -> string) (items : list A)
    (m : JS.object string nat) :
  fold_left (fun m item => bump m (f item)) items m =
  fold_left bump (map f items) m.
Proof.
  revert m. induction items as [|item items IH]; intros m; simpl; [reflexivity|].
  now rewrite IH.
Qed.

Lemma ranking_top5 (dim : Dimension) (items : list Observation) :
  ranking dim items = top5 (countKeys (dimensionKeys dim items)).
Proof.
  destruct dim; simpl; unfold topTags, topCourses, topFeelings, tagCountMap,
    courseCountMap, feelingCountMap, countKeys; f_equal;
    auto using fold_bump_flat_map, fold_bump_map.
Qed.
End CountKeys.

(** *** Sorting the entries *)

Section Sorting.

Lemma insertByCount_perm x l : Permutation (insertByCount x l) (x :: l).
Proof.
  induction l as [|y l IH]; simpl; [reflexivity|].
  destruct (x.2 <? y.2)%nat; [|reflexivity].
  rewrite IH. apply perm_swap.
Qed.

Lemma sortByCountDesc_perm l : Permutation (sortByCountDesc l) l.
Proof.
  induction l as [|x l IH]; simpl; [reflexivity|].
  rewrite insertByCount_perm. now constructor.
Qed.

Lemma precedes_cons {A : Type} (a x y : A) (l : list A) :
  precedes l x y -> precedes (a :: l) x y.
Proof. intros (l1 & l2 & l3 & ->). now exists (a :: l1), l2, l3. Qed.

Lemma precedes_head {A : Type} (x y : A) (l : list A) :
  In y l -> precedes (x :: l) x y.
Proof.
  intros Hin. apply in_split in Hin as (l2 & l3 & ->). now exists [], l2, l3.
Qed.

Lemma precedes_app_l {A : Type} (x y : A) (l l' : list A) :
  precedes l x y -> precedes (l ++ l') x y.
Proof.
  intros (l1 & l2 & l3 & ->). exists l1, l2, (l3 ++ l').
  now rewrite <- !app_assoc, <- !app_comm_cons, <- !app_assoc.
Qed.

Lemma rankedBefore_count order (x y : string * nat) : rankedBefore order x y -> y.2 <= x.2.
Proof. intros [H|[H _]]; lia. Qed.

Lemma insertByCount_sorted (P : relation (string * nat)) x l :
  (forall y z, P y z -> z.2 <= y.2) ->
  (forall y, In y l -> y.2 <= x.2 -> P x y) ->
  (forall y, In y l -> x.2 < y.2 -> P y x) ->
  StronglySorted P l -> StronglySorted P (insertByCount x l).
Proof.
  intros Hcount Hbefore Hafter Hsorted.
  induction Hsorted as [|y l Hsorted IH Hall]; simpl.
  - repeat constructor.
  - destruct (Nat.ltb_spec x.2 y.2) as [Hlt|Hge].
    + constructor.
      * apply IH; intros z Hz; [apply Hbefore | apply Hafter]; now right.
      * apply Forall_forall. intros z Hz.
        apply list_elem_of_In, (Permutation_in _ (insertByCount_perm x l)) in Hz.
        destruct Hz as [<-|Hz]; [apply Hafter; [now left | exact Hlt]|].
        rewrite Forall_forall in Hall. apply Hall. now apply list_elem_of_In.
    + constructor; [now constructor|].
      apply Forall_forall. intros z Hz. apply list_elem_of_In in Hz.
      apply Hbefore; [exact Hz|].
      destruct Hz as [<-|Hz]; [exact Hge|].
      rewrite Forall_forall in Hall.
      apply list_elem_of_In, Hall, Hcount in Hz. lia.
Qed.

Lemma StronglySorted_weaken {A : Type} (P Q : relation A) (l : list A) :
  (forall x y, In x l -> In y l -> P x y -> Q x y) ->
  StronglySorted P l -> StronglySorted Q l.
Proof.
  intros HPQ Hs. induction Hs as [|x l Hs IH Hall]; constructor.
  - apply IH. intros a b Ha Hb. apply HPQ; now right.
  - apply Forall_forall. intros y Hy. rewrite Forall_forall in Hall.
    apply HPQ; [now left | right; now apply list_elem_of_In | now apply Hall].
Qed.

(** The stable descending sort: a larger count first, and entries of equal
    count in the order of the list that was sorted. *)
Lemma sortByCountDesc_sorted l :
  StronglySorted (rankedBefore l) (sortByCountDesc l).
Proof.
  induction l as [|x l IH]; simpl; [constructor|].
  apply insertByCount_sorted.
  - apply rankedBefore_count.
  - intros y Hy Hle. apply (Permutation_in _ (sortByCountDesc_perm l)) in Hy.
    destruct (Nat.eq_dec x.2 y.2) as [Heq|Hne].
    + right. split; [exact Heq | now apply precedes_head].
    + left. lia.
  - intros y _ Hlt. now left.
  - apply (StronglySorted_weaken (rankedBefore l)); [|exact IH].
    intros a b _ _ [H|[H1 H2]]; [now left | right].
    split; [exact H1 | now apply precedes_cons].
Qed.

Lemma StronglySorted_take {A : Type} (P : relation A) (n : nat) (l : list A) :
  StronglySorted P l -> StronglySorted P (take n l).
Proof.
  intros Hs. revert n. induction Hs as [|x l Hs IH Hall]; intros [|n]; simpl;
    try constructor.
  - apply IH.
  - apply Forall_forall. intros y Hy. rewrite Forall_forall in Hall.
    apply Hall. apply list_elem_of_In in Hy. apply list_elem_of_In.
    revert Hy. clear. revert n. induction l as [|z l IHl]; intros [|n]; simpl;
      try tauto.
    intros [->|Hy]; [now left | right; now apply (IHl n)].
Qed.
End Sorting.

(** *** The order of [Object.entries] *)

Section Entries.
Implicit Types (o : JS.object string nat).

Lemma insertByIndex_perm (x : N * (string * nat)) l :
  Permutation (JS.insertByIndex x l) (x :: l).
Proof.
  induction l as [|y l IH]; simpl; [reflexivity|].
  destruct (x.1 <? y.1)%N; [reflexivity|].
  rewrite IH. apply perm_swap.
Qed.

Lemma sortByIndex_perm (l : list (N * (string * nat))) :
  Permutation (foldr JS.insertByIndex [] l) l.
Proof.
  induction l as [|x l IH]; simpl; [reflexivity|].
  rewrite insertByIndex_perm. now constructor.
Qed.

Lemma insertByIndex_sorted (x : N * (string * nat)) l :
  StronglySorted (fun a b => (a.1 <= b.1)%N) l ->
  StronglySorted (fun a b => (a.1 <= b.1)%N) (JS.insertByIndex x l).
Proof.
  intros Hs. induction Hs as [|y l Hs IH Hall]; simpl.
  - repeat constructor.
  - pose proof (proj1 (Forall_forall _ _) Hall) as Hall'.
    destruct (N.ltb_spec x.1 y.1) as [Hlt|Hge].
    + constructor; [now constructor|].
      apply Forall_forall. intros z Hz. apply list_elem_of_In in Hz.
      destruct Hz as [<-|Hz]; [lia|].
      apply list_elem_of_In, Hall' in Hz. lia.
    + constructor; [exact IH|].
      apply Forall_forall. intros z Hz.
      apply list_elem_of_In, (Permutation_in _ (insertByIndex_perm x l)) in Hz.
      destruct Hz as [<-|Hz]; [exact Hge|].
      now apply Hall', list_elem_of_In.
Qed.

Lemma sortByIndex_sorted (l : list (N * (string * nat))) :
  StronglySorted (fun a b => (a.1 <= b.1)%N) (foldr JS.insertByIndex [] l).
Proof.
  induction l as [|x l IH]; simpl; [constructor | now apply insertByIndex_sorted].
Qed.

Lemma indexEntries_snd o :
  map snd (JS.indexEntries o) = List.filter JS.isIndexKey o.
Proof.
  unfold JS.indexEntries, JS.isIndexKey.
  induction o as [|e o IH]; simpl; [reflexivity|].
  destruct (JS.arrayIndex e.1); simpl; [f_equal|]; exact IH.
Qed.

Lemma indexEntries_index o (p : N * (string * nat)) :
  In p (JS.indexEntries o) -> p.1 = indexOf p.2.
Proof.
  unfold JS.indexEntries, indexOf.
  induction o as [|e o IH]; simpl; [tauto|].
  destruct (JS.arrayIndex e.1) eqn:Hidx; simpl; [|exact IH].
  intros [<-|Hin]; [simpl; now rewrite Hidx | now apply IH].
Qed.

Lemma filter_partition_perm {A : Type} (f : A -> bool) (l : list A) :
  Permutation (List.filter f l ++ List.filter (fun x => negb (f x)) l) l.
Proof.
  induction l as [|x l IH]; simpl; [reflexivity|].
  destruct (f x); simpl; [now constructor|].
  rewrite <- Permutation_middle. now constructor.
Qed.

(** [Object.entries]: first the array-index keys, ascending by their
    numeric value, then the remaining keys in creation order. *)
Lemma entries_shape o :
  exists indexed,
    JS.entries o = indexed ++ List.filter (fun e => negb (JS.isIndexKey e)) o /\
    Permutation indexed (List.filter JS.isIndexKey o) /\
    StronglySorted (fun a b => (indexOf a <= indexOf b)%N) indexed.
Proof.
  exists (map snd (foldr JS.insertByIndex [] (JS.indexEntries o))).
  split; [reflexivity|]. split.
  - rewrite <- indexEntries_snd. apply Permutation_map, sortByIndex_perm.
  - pose proof (sortByIndex_sorted (JS.indexEntries o)) as Hs.
    assert (Hin : forall p, In p (foldr JS.insertByIndex [] (JS.indexEntries o)) ->
                            p.1 = indexOf p.2).
    { intros p Hp. apply (indexEntries_index o).
      now apply (Permutation_in _ (sortByIndex_perm _)) in Hp. }
    induction Hs as [|p l Hs IH Hall]; simpl; constructor.
    + apply IH. intros q Hq. apply Hin. now right.
    + rewrite Forall_forall in Hall. apply Forall_forall. intros e He.
      apply list_elem_of_In, in_map_iff in He as (q & <- & Hq).
      rewrite <- (Hin p) by now left. rewrite <- (Hin q) by now right.
      now apply Hall, list_elem_of_In.
Qed.

Lemma entries_perm o : Permutation (JS.entries o) o.
Proof.
  destruct (entries_shape o) as (indexed & -> & Hperm & _).
  rewrite Hperm. apply filter_partition_perm.
Qed.

Lemma entries_without_index o :
  Forall (fun e => JS.isIndexKey e = false) o -> JS.entries o = o.
Proof.
  intros Hall. unfold JS.entries.
  assert (Hix : JS.indexEntries o = []).
  { unfold JS.indexEntries, JS.isIndexKey in *.
    induction Hall as [|e o He _ IH]; simpl; [reflexivity|].
    destruct (JS.arrayIndex e.1); [discriminate | exact IH]. }
  rewrite Hix. simpl.
  induction Hall as [|e o He _ IH]; simpl; [reflexivity|].
  rewrite He. simpl. f_equal. apply IH.
  unfold JS.indexEntries in *. simpl in Hix.
  unfold JS.isIndexKey in He. destruct (JS.arrayIndex e.1); [discriminate|].
  exact Hix.
Qed.
End Entries.

(** *** Rankings *)

Section Rankings.
Lemma StronglySorted_precedes {A : Type} (P : relation A) (l : list A) (x y : A) :
  StronglySorted P l -> precedes l x y -> P x y.
Proof.
  intros Hs (l1 & l2 & l3 & ->).
  induction l1 as [|a l1 IH]; simpl in Hs; inversion Hs; subst; [|now apply IH].
  match goal with H : Forall _ _ |- _ => rewrite Forall_forall in H; apply H end.
  apply list_elem_of_In, in_or_app. right. now left.
Qed.

Lemma precedes_map {A B : Type} (f : A -> B) (l : list A) (x y : A) :
  precedes l x y -> precedes (map f l) (f x) (f y).
Proof.
  intros (l1 & l2 & l3 & ->). exists (map f l1), (map f l2), (map f l3).
  now rewrite !map_app, !map_cons, !map_app, !map_cons.
Qed.

Lemma tabulate_keys (keys : list string) :
  map fst (map (fun k => (k, frequency keys k)) (firstSeen keys)) = firstSeen keys.
Proof. rewrite map_map. apply map_id. Qed.

(** C5, amended.  For each ranking dimension whose keys are not names
    inherited from [Object.prototype]: the list has [min 5 n] entries for
    [n] distinct keys; every entry pairs a key with its frequency; the list
    followed by the entries left out is the whole table sorted by
    descending count, entries of equal count standing in the order of
    [Object.entries], which lists array-index keys first in ascending
    numeric order and then the other keys in first-occurrence order.  When
    no key is an array index, ties stand in first-occurrence order. *)
Theorem ranking_order (dim : Dimension) (items : list Observation) :
  Forall ordinaryKey (dimensionKeys dim items) ->
  let keys := dimensionKeys dim items in
  let table := map (fun k => (k, frequency keys k)) (firstSeen keys) in
  let order := JS.entries table in
  let top := ranking dim items in
  length top = min 5 (length (firstSeen keys)) /\
  length top <= 5 /\
  (forall k c, In (k, c) top -> In k keys /\ c = frequency keys k) /\
  List.NoDup (map fst top) /\
  (exists rest,
     Permutation (top ++ rest) table /\
     StronglySorted (rankedBefore order) (top ++ rest)) /\
  (exists indexed,
     order = indexed ++ List.filter (fun e => negb (JS.isIndexKey e)) table /\
     Permutation indexed (List.filter JS.isIndexKey table) /\
     StronglySorted (fun a b => (indexOf a <= indexOf b)%N) indexed) /\
  (Forall (fun k => JS.arrayIndex k = None) keys -> tiesInFirstSeenOrder keys top).
Proof.
  intros _ keys table order top.
  assert (Htop : top = take 5 (sortByCountDesc order)).
  { unfold top. rewrite ranking_top5. unfold top5.
    now rewrite countKeys_tabulate. }
  set (full := sortByCountDesc order) in *.
  assert (Hfull : Permutation full table).
  { unfold full. rewrite sortByCountDesc_perm. apply entries_perm. }
  assert (Hsorted : StronglySorted (rankedBefore order) full)
    by apply sortByCountDesc_sorted.
  assert (Hsplit : top ++ drop 5 full = full) by (rewrite Htop; apply take_drop).
  assert (Hlen : length full = length (firstSeen keys)).
  { rewrite (Permutation_length Hfull). unfold table. apply length_map. }
  split; [rewrite Htop, length_take, Hlen; reflexivity|].
  split; [rewrite Htop, length_take; lia|].
  split; [|split; [|split; [|split]]].
  - intros k c Hin.
    assert (Hin' : In (k, c) table).
    { apply (Permutation_in _ Hfull). rewrite <- Hsplit.
      apply in_or_app. now left. }
    unfold table in Hin'. apply in_map_iff in Hin' as (k' & [= <- <-] & Hk).
    split; [now apply firstSeen_In | reflexivity].
  - assert (Hnd : List.NoDup (map fst (top ++ drop 5 full))).
    { rewrite Hsplit.
      apply (Permutation_NoDup (l := firstSeen keys)); [|apply firstSeen_NoDup].
      rewrite <- (tabulate_keys keys). symmetry. now apply Permutation_map. }
    rewrite map_app in Hnd. now apply NoDup_app_remove_r in Hnd.
  - exists (drop 5 full). now rewrite Hsplit.
  - apply entries_shape.
  - intros Hplain e1 e2 Hprec Heq.
    assert (Horder : order = table).
    { apply entries_without_index. unfold table.
      apply Forall_forall. intros e He.
      apply list_elem_of_In, in_map_iff in He as (k & <- & Hk).
      rewrite Forall_forall in Hplain.
      unfold JS.isIndexKey. simpl.
      rewrite (Hplain k); [reflexivity|].
      now apply list_elem_of_In, firstSeen_In. }
    assert (Hrank : rankedBefore order e1 e2).
    { apply (StronglySorted_precedes _ full); [exact Hsorted|].
      rewrite <- Hsplit. now apply precedes_app_l. }
    destruct Hrank as [Hlt|[_ Hp]]; [lia|].
    rewrite Horder in Hp. rewrite <- (tabulate_keys keys).
    now apply precedes_map.
Qed.

Lemma ranking_order_witness :
  Forall ordinaryKey (dimensionKeys ByTag namedCourses) /\
  ranking ByTag namedCourses = [("语速异常", 2); ("文本表达别扭", 1); ("重读异常", 1)] /\
  length (ranking ByTag namedCourses) <= 5 /\
  List.NoDup (map fst (ranking ByTag namedCourses)).
Proof.
  assert (H : Forall ordinaryKey (dimensionKeys ByTag namedCourses)).
  { unfold ordinaryKey. apply (bool_decide_unpack _). vm_compute. exact I. }
  split; [exact H|]. split; [vm_compute; reflexivity|].
  destruct (ranking_order ByTag namedCourses H) as (_ & Hlen & _ & Hnd & _).
  split; [exact Hlen | exact Hnd].
Defined.

(** C5, as stated, fails on course names that are array indices: with the
    courses "2" and "1" met in this order, once each, the ranking lists "1"
    before "2". *)
Lemma ranking_numeric_course_names :
  dimensionKeys ByCourse numberedCourses = ["2"; "1"] /\
  ranking ByCourse numberedCourses = [("1", 1); ("2", 1)] /\
  ~ tiesInFirstSeenOrder (dimensionKeys ByCourse numberedCourses)
      (ranking ByCourse numberedCourses).
Proof.
  split; [reflexivity|]. split; [vm_compute; reflexivity|].
  intros Hties.
  assert (Hrank : ranking ByCourse numberedCourses = [("1", 1); ("2", 1)])
    by (vm_compute; reflexivity).
  specialize (Hties ("1", 1) ("2", 1)). rewrite Hrank in Hties.
  destruct Hties as (l1 & l2 & l3 & Heq); [now exists [], [], [] | reflexivity |].
  simpl in Heq. destruct l1 as [|a [|b l1]]; simpl in Heq.
  - discriminate.
  - apply (f_equal (@length string)) in Heq. simpl in Heq.
    rewrite length_app in Heq. simpl in Heq. lia.
  - apply (f_equal (@length string)) in Heq. simpl in Heq.
    rewrite length_app in Heq. simpl in Heq. lia.
Qed.
End Rankings.

(** *** The daily trend *)

Section Trend.
Local Open Scope Z_scope.
Variable tza : Z.

Lemma Day_plusDays (t k : Z) :
  JS.Day (JS.setDate_getDate_plus tza t k) = JS.Day t + k.
Proof.
  pose proof (plusDays_local tza t k) as H. unfold JS.LocalTime in H.
  replace (JS.setDate_getDate_plus tza t k) with (t + k * JS.msPerDay) by lia.
  unfold JS.Day. apply Z.div_add. unfold JS.msPerDay. lia.
Qed.

Lemma get_In {V : Type} (m : JS.object Z V) (k : Z) (v : V) :
  List.NoDup (map fst m) -> In (k, v) m -> JS.get m k = Some v.
Proof.
  induction m as [|[k0 v0] m IH]; simpl; [tauto|].
  intros Hnd [Heq|Hin]; inversion Hnd; subst.
  - injection Heq as -> ->. destruct (decide (k = k)); [reflexivity | congruence].
  - destruct (decide (k = k0)) as [->|_]; [|now apply IH].
    exfalso. match goal with H : ~ In _ _ |- _ => apply H end.
    apply in_map_iff. now exists (k0, v).
Qed.

Lemma get_Some_In {V : Type} (m : JS.object Z V) (k : Z) (v : V) :
  JS.get m k = Some v -> In k (map fst m).
Proof.
  induction m as [|[k0 v0] m IH]; simpl; [discriminate|].
  destruct (decide (k = k0)) as [->|_]; [now left | right; now apply IH].
Qed.

Lemma initLoop (start : Z) (first : Z) (a len : nat) :
  forEachM (fun m idx =>
      key ← getDateKey (Some (JS.setDate_getDate_plus tza start (Z.of_nat idx)));
      mret (JS.set m key 0%nat))
    (seq a len)
    (map (fun i => (JS.Day start + Z.of_nat i, 0%nat)) (seq 0 a)) =
  JS.Ok (map (fun i => (JS.Day start + Z.of_nat i, 0%nat)) (seq 0 (a + len))).
Proof.
  revert a. induction len as [|len IH]; intros a; simpl.
  - now rewrite Nat.add_0_r.
  - rewrite Day_plusDays. simpl. rewrite set_absent.
    + replace (a + S len)%nat with (S a + len)%nat by lia.
      rewrite <- IH. f_equal. rewrite seq_S, map_app. reflexivity.
    + rewrite map_map. simpl. rewrite in_map_iff.
      intros (i & Hi & Hin). apply in_seq in Hin. lia.
Qed.

Lemma trendInit_buckets (w : AnalysisWindow) (clock : Z) :
  trendInit tza w clock =
  JS.Ok (map (fun i => (JS.Day (trendStart tza w clock) + Z.of_nat i, 0%nat))
           (seq 0 (trendDays w))).
Proof. unfold trendInit. apply (initLoop _ 0 0). Qed.

Lemma trendStep_keys (m m' : JS.object JS.DateKey nat) (item : Observation) :
  trendStep m item = JS.Ok m' -> map fst m' = map fst m.
Proof.
  unfold trendStep, getDateKey, JS.toISODate.
  destruct (created_at item) as [t|]; simpl; [|discriminate].
  intros [= <-]. destruct (JS.get m (JS.Day t)) eqn:Hget; [|reflexivity].
  apply keys_set_present. now apply (get_Some_In m _ n).
Qed.


Lemma trendStep_get (m : JS.object JS.DateKey nat) (item : Observation) (t : Z) :
  created_at item = Some t ->
  exists m', trendStep m item = JS.Ok m' /\
    forall k n, JS.get m k = Some n ->
      JS.get m' k = Some (n + if onDay k item then 1 else 0)%nat.
Proof.
  intros Ht. unfold trendStep, getDateKey, JS.toISODate, onDay. rewrite Ht. simpl.
  eexists. split; [reflexivity|]. intros k n Hk.
  destruct (JS.get m (JS.Day t)) as [n0|] eqn:Hget.
  - rewrite get_set. destruct (decide (k = JS.Day t)) as [->|Hne].
    + rewrite Z.eqb_refl. congruence.
    + rewrite Hk. destruct (Z.eqb_spec (JS.Day t) k); [congruence|].
      f_equal. lia.
  - rewrite Hk. destruct (Z.eqb_spec (JS.Day t) k); [congruence|].
    f_equal. lia.
Qed.

Lemma trendLoop (source : list Observation) (m : JS.object JS.DateKey nat) :
  Forall (fun item => is_Some (created_at item)) source ->
  exists m', forEachM trendStep source m = JS.Ok m' /\
    map fst m' = map fst m /\
    forall k n, JS.get m k = Some n ->
      JS.get m' k = Some (n + countOnDay k source)%nat.
Proof.
  intros Hvalid. revert m.
  induction Hvalid as [|item source [t Ht] _ IH]; intros m; simpl.
  - exists m. split; [reflexivity|]. split; [reflexivity|].
    intros k n Hk. rewrite Hk. f_equal. unfold countOnDay. simpl. lia.
  - destruct (trendStep_get m item t Ht) as (m1 & Hstep & Hget1).
    rewrite Hstep. simpl.
    destruct (IH m1) as (m' & Hloop & Hkeys & Hget').
    exists m'. split; [exact Hloop|]. split.
    + rewrite Hkeys. now apply (trendStep_keys m m1 item).
    + intros k n Hk. rewrite (Hget' k _ (Hget1 k n Hk)). f_equal.
      unfold countOnDay. simpl. destruct (onDay k item); simpl; lia.
Qed.

Lemma trendSource_valid (w : AnalysisWindow) (clock : Z)
    (observations : list Observation) :
  Forall (fun item => is_Some (created_at item))
    (trendSource tza w clock observations).
Proof.
  apply Forall_forall. intros item Hin. apply list_elem_of_In in Hin.
  unfold trendSource, currentItems in Hin.
  destruct w; simpl in Hin; apply List.filter_In in Hin as [_ Hin];
    unfold createdBetween, JS.date_ge in Hin;
    destruct (created_at item); try discriminate; now eexists.
Qed.
End Trend.

Section TrendBuckets.
Local Open Scope Z_scope.

Lemma tabulated_keys (first : Z) (n : nat) :
  map fst (map (fun i => (first + Z.of_nat i, 0%nat)) (seq 0 n)) =
  map (fun i => first + Z.of_nat i) (seq 0 n).
Proof. now rewrite map_map. Qed.

Lemma consecutive_NoDup (first : Z) (n : nat) :
  List.NoDup (map (fun i => first + Z.of_nat i) (seq 0 n)).
Proof.
  apply Finite.Injective_map_NoDup; [|apply seq_NoDup].
  intros i j Hij. lia.
Qed.

Lemma trend_result (tza : Z) (w : AnalysisWindow) (clock : Z)
    (observations : list Observation) :
  let source := trendSource tza w clock observations in
  let keys := map (fun i => JS.Day (trendStart tza w clock) + Z.of_nat i)
                (seq 0 (trendDays w)) in
  exists trend,
    dailyTrend tza w clock observations = JS.Ok trend /\
    map fst trend = keys /\
    forall k n, In (k, n) trend -> n = countOnDay k source.
Proof.
  intros source keys. unfold dailyTrend, trendCountMap.
  rewrite trendInit_buckets. simpl.
  destruct (trendLoop source
              (map (fun i => (JS.Day (trendStart tza w clock) + Z.of_nat i, 0%nat))
                 (seq 0 (trendDays w))) (trendSource_valid tza w clock observations))
    as (trend & Hloop & Hkeys & Hget).
  exists trend. split; [exact Hloop|].
  rewrite tabulated_keys in Hkeys. split; [exact Hkeys|].
  intros k n Hin.
  assert (Hk : In k keys).
  { unfold keys. rewrite <- Hkeys. apply in_map_iff. now exists (k, n). }
  assert (Hnd : List.NoDup (map fst trend))
    by (rewrite Hkeys; apply consecutive_NoDup).
  pose proof (get_In trend k n Hnd Hin) as Hgot.
  unfold keys in Hk. apply in_map_iff in Hk as (i & <- & Hi).
  rewrite (Hget _ 0%nat) in Hgot.
  - injection Hgot as <-. reflexivity.
  - apply get_In.
    + rewrite tabulated_keys. apply consecutive_NoDup.
    + apply in_map_iff. now exists i.
Qed.


(** C6 at a zone east of UTC.  With the clock at 10:00 on 2024-06-15 in a
    zone eight hours ahead, the 7-day series is keyed by the UTC dates
    2024-06-08 to 2024-06-14 (days 19882 to 19888): it does not end on the
    clock's day 19889, and an observation made at the clock time, which is
    in the trend source, is counted in no bucket. *)
Theorem trend_east_of_utc :
  let today := sampleObservation "拼音" tts ["语速异常"] ["其他"] (Some sampleClock) in
  dailyTrend utcPlus8 W7d sampleClock [today] =
    JS.Ok [(19882, 0%nat); (19883, 0%nat); (19884, 0%nat); (19885, 0%nat);
           (19886, 0%nat); (19887, 0%nat); (19888, 0%nat)] /\
  JS.Day (JS.LocalTime utcPlus8 sampleClock) = 19889 /\
  JS.Day sampleClock = 19889 /\
  trendSource utcPlus8 W7d sampleClock [today] = [today] /\
  getDateKey (created_at today) = JS.Ok 19889.
Proof. cbv zeta. repeat split; vm_compute; reflexivity. Qed.
End TrendBuckets.

(** ** Properties of the summary *)

Section Summary.
Lemma div_ofCount (x : Q) (n : nat) :
  (0 < n)%nat -> JS.div x (JS.ofCount n) = JS.Ok (x / JS.ofCount n)%Q.
Proof.
  intros Hn. destruct n as [|n]; [lia|]. reflexivity.
Qed.








Lemma ratioText_defined (data : AnalysisData.t) :
  (exists s, ratioText data = JS.Ok s) /\
  (AnalysisData.totalCount data = 0 -> ratioText data = JS.Ok noDataText).
Proof.
  unfold ratioText.
  destruct (Nat.ltb_spec 0 (AnalysisData.totalCount data)) as [Hpos|Hzero].
  - rewrite !div_ofCount by exact Hpos. simpl. split; [eauto | lia].
  - split; [eauto | reflexivity].
Qed.

Lemma compareText_defined (data : AnalysisData.t) :
  (exists s, compareText data = JS.Ok s) /\
  (AnalysisData.previousItems data = [] ->
   compareText data = JS.Ok noComparisonText).
Proof.
  unfold compareText.
  destruct (Nat.ltb_spec 0 (length (AnalysisData.previousItems data))) as [Hpos|Hzero].
  - destruct (truthy (AnalysisData.windowDays data)); simpl andb; cbv iota.
    + rewrite div_ofCount by exact Hpos. simpl. split; [eauto|].
      intros Hnil. rewrite Hnil in Hpos. simpl in Hpos. lia.
    + split; [eauto | reflexivity].
  - rewrite andb_false_r. split; [eauto | reflexivity].
Qed.

Lemma summaryText_defined (sessions : list Session) (w : AnalysisWindow)
    (data : AnalysisData.t) :
  exists s, summaryText sessions w data = JS.Ok s.
Proof.
  unfold summaryText.
  destruct (proj1 (ratioText_defined data)) as [ratio ->].
  destruct (proj1 (compareText_defined data)) as [compare ->].
  simpl. eauto.
Qed.

Lemma trendSource_nil (tza : Z) (w : AnalysisWindow) (clock : Z) :
  trendSource tza w clock [] = [].
Proof. now destruct w. Qed.

(** C8. Both core functions produce a result on every input.  The
    aggregation and the summary never throw, whatever the time zone offset,
    the clock, the sessions and the log, unreadable timestamps included; a
    total of 0 gives the "no data" ratio text and an empty previous period
    the "no comparison" text, so neither ratio divides by zero.  On the
    empty log the total is 0, the three rankings are empty and every trend
    bucket is 0.  The classifier maps the empty draft to [tts] with the
    "no signal" reason. *)
Theorem report_defined (tza : Z) (sessions : list Session) (w : AnalysisWindow)
    (clock : Z) (observations : list Observation) :
  (exists data summary,
     analysisData tza w clock observations = JS.Ok data /\
     summaryText sessions w data = JS.Ok summary /\
     report tza sessions w clock observations = JS.Ok (data, summary) /\
     (AnalysisData.totalCount data = 0 -> ratioText data = JS.Ok noDataText) /\
     (AnalysisData.previousItems data = [] ->
      compareText data = JS.Ok noComparisonText) /\
     (observations = [] ->
      AnalysisData.totalCount data = 0 /\
      AnalysisData.topTags data = [] /\
      AnalysisData.topCourses data = [] /\
      AnalysisData.topFeelings data = [] /\
      Forall (fun e => e.2 = 0) (AnalysisData.dailyTrend data) /\
      ratioText data = JS.Ok noDataText /\
      compareText data = JS.Ok noComparisonText)) /\
  (forall draft, exists r, inferCategory draft = r) /\
  inferCategory emptyObservationDraft =
    {| result_category := tts; reason := noSignalReason |}.
Proof.
  split; [|split; [intros draft; eauto | reflexivity]].
  destruct (trend_result tza w clock observations) as (trend & Htrend & _ & Hcount).
  unfold report, analysisData. rewrite Htrend. simpl.
  match goal with
  | |- context [summaryText sessions w ?d] =>
      set (data := d);
      destruct (summaryText_defined sessions w data) as [summary Hsummary]
  end.
  exists data, summary. rewrite Hsummary. simpl.
  split; [reflexivity|]. split; [reflexivity|]. split; [reflexivity|].
  split; [exact (proj2 (ratioText_defined data))|].
  split; [exact (proj2 (compareText_defined data))|].
  intros ->.
  assert (Hprev : AnalysisData.previousItems data = []).
  { unfold data. simpl. unfold previousItems.
    now destruct (previousStart tza w clock), (previousEnd tza w clock). }
  split; [reflexivity|]. split; [reflexivity|]. split; [reflexivity|].
  split; [reflexivity|]. split.
  - apply Forall_forall. intros [k n] He. apply list_elem_of_In in He.
    rewrite (Hcount k n He), trendSource_nil. reflexivity.
  - split; [now apply (proj2 (ratioText_defined data))
           | now apply (proj2 (compareText_defined data))].
Qed.
End Summary.

(** ** Further properties *)

(** *** Counts and periods *)

Lemma countCategory_partition (items : list Observation) :
  countCategory text items + countCategory tts items = length items.
Proof.
  unfold countCategory. induction items as [|item items IH]; simpl; [reflexivity|].
  destruct (category item); simpl; lia.
Qed.

Lemma analysisData_value (tza : Z) (w : AnalysisWindow) (clock : Z)
    (observations : list Observation) :
  exists trend,
    dailyTrend tza w clock observations = JS.Ok trend /\
    analysisData tza w clock observations = JS.Ok {|
      AnalysisData.windowDays := windowDays w;
      AnalysisData.currentItems := currentItems tza w clock observations;
      AnalysisData.previousItems := previousItems tza w clock observations;
      AnalysisData.totalCount := length (currentItems tza w clock observations);
      AnalysisData.textCount :=
        countCategory text (currentItems tza w clock observations);
      AnalysisData.ttsCount :=
        countCategory tts (currentItems tza w clock observations);
      AnalysisData.topTags := topTags (currentItems tza w clock observations);
      AnalysisData.topCourses := topCourses (currentItems tza w clock observations);
      AnalysisData.topFeelings := topFeelings (currentItems tza w clock observations);
      AnalysisData.dailyTrend := trend |}.
Proof.
  destruct (trend_result tza w clock observations) as (trend & Htrend & _).
  exists trend. split; [exact Htrend|].
  unfold analysisData. now rewrite Htrend.
Qed.

(** X1. The text count and the tts count of a report add up to its total;
    the same holds for the statistics of the results page. *)
Theorem category_counts_add_up (tza : Z) (w : AnalysisWindow) (clock : Z)
    (observations : list Observation) :
  (exists data,
     analysisData tza w clock observations = JS.Ok data /\
     AnalysisData.textCount data + AnalysisData.ttsCount data =
     AnalysisData.totalCount data) /\
  statsTextCount observations + statsTtsCount observations = statsTotal observations.
Proof.
  split; [|apply countCategory_partition].
  destruct (analysisData_value tza w clock observations) as (trend & _ & ->).
  eexists. split; [reflexivity|]. apply countCategory_partition.
Qed.

Lemma currentItems_all (tza clock : Z) (observations : list Observation) :
  currentItems tza Wall clock observations = observations.
Proof.
  unfold currentItems. simpl.
  induction observations as [|item observations IH]; simpl; [reflexivity|].
  now rewrite IH.
Qed.

(** X2. An observation whose timestamp cannot be read is counted under the
    window [all] (there every observation is current and the previous period
    is empty), but it is in neither period of a 7-day or 30-day window and
    never in the trend source. *)
Theorem unreadable_timestamp (tza : Z) (w : AnalysisWindow) (clock : Z)
    (observations : list Observation) (item : Observation) :
  In item observations -> created_at item = None ->
  currentItems tza Wall clock observations = observations /\
  previousItems tza Wall clock observations = [] /\
  In item (currentItems tza Wall clock observations) /\
  (w <> Wall ->
   ~ In item (currentItems tza w clock observations) /\
   ~ In item (previousItems tza w clock observations)) /\
  ~ In item (trendSource tza w clock observations).
Proof.
  intros Hin Hnone.
  split; [apply currentItems_all|]. split; [reflexivity|].
  split; [now rewrite currentItems_all|].
  split.
  - intros Hw. split.
    + unfold currentItems. rewrite List.filter_In. intros [_ H].
      destruct w; [| |congruence]; simpl in H;
        unfold createdBetween, JS.date_ge in H; now rewrite Hnone in H.
    + unfold previousItems.
      destruct w; [| |congruence]; simpl; rewrite List.filter_In; intros [_ H];
        unfold createdBetween, JS.date_ge in H; now rewrite Hnone in H.
  - intros H. pose proof (trendSource_valid tza w clock observations) as Hvalid.
    rewrite Forall_forall in Hvalid. apply list_elem_of_In, Hvalid in H.
    rewrite Hnone in H. now destruct H.
Qed.

Lemma unreadable_timestamp_witness :
  let item := sampleObservation "儿歌" tts ["重读异常"] ["偶尔能感觉到情绪"] None in
  In item sampleLog /\
  In item (currentItems utcPlus8 Wall sampleClock sampleLog) /\
  ~ In item (trendSource utcPlus8 W7d sampleClock sampleLog).
Proof.
  cbv zeta.
  set (item := sampleObservation "儿歌" tts ["重读异常"] ["偶尔能感觉到情绪"] None).
  assert (Hin : In item sampleLog) by (right; right; right; now left).
  destruct (unreadable_timestamp utcPlus8 W7d sampleClock sampleLog item Hin eq_refl)
    as (_ & _ & Hall & _ & Htrend).
  split; [exact Hin|]. split; [exact Hall | exact Htrend].
Defined.

(** X3. Widening the window never loses an observation: what is current in
    the 7-day window is current in the 30-day window, and what is current in
    the 30-day window is current under [all]. *)
Theorem windows_nested (tza clock : Z) (observations : list Observation)
    (item : Observation) :
  (In item (currentItems tza W7d clock observations) ->
   In item (currentItems tza W30d clock observations)) /\
  (In item (currentItems tza W30d clock observations) ->
   In item (currentItems tza Wall clock observations)).
Proof.
  split.
  - unfold currentItems. rewrite !List.filter_In. simpl.
    intros [Hin H]. split; [exact Hin|].
    apply createdBetween_iff in H as (t & Ht & Hlo & Hhi).
    apply createdBetween_iff. exists t. split; [exact Ht|].
    rewrite startOfWindow_value in *. lia.
  - rewrite currentItems_all. unfold currentItems. rewrite List.filter_In. tauto.
Qed.

(** *** The trend series *)

Section TrendSums.
Local Open Scope Z_scope.

Lemma onDay_unique (k k' : JS.DateKey) (item : Observation) :
  onDay k item = true -> onDay k' item = true -> k = k'.
Proof.
  unfold onDay. destruct (created_at item); [|discriminate].
  rewrite !Z.eqb_eq. congruence.
Qed.

Lemma hits_on_distinct_days (keys : list JS.DateKey) (item : Observation) :
  List.NoDup keys ->
  fold_right (fun k acc => ((if onDay k item then 1 else 0) + acc)%nat) 0%nat keys =
  if onDays keys item then 1%nat else 0%nat.
Proof.
  unfold onDays. intros Hnd.
  induction Hnd as [|k keys Hnot Hnd IH]; simpl; [reflexivity|].
  rewrite IH. destruct (onDay k item) eqn:Hk; simpl; [|reflexivity].
  destruct (existsb (fun k0 => onDay k0 item) keys) eqn:Hex; [|reflexivity].
  apply existsb_exists in Hex as (k' & Hin & Hk').
  rewrite (onDay_unique k k' item Hk Hk') in Hnot. contradiction.
Qed.

Lemma trendTotal_map (f : JS.DateKey -> nat) (keys : list JS.DateKey) :
  trendTotal (map (fun k => (k, f k)) keys) =
  fold_right (fun k acc => (f k + acc)%nat) 0%nat keys.
Proof.
  unfold trendTotal. induction keys as [|k keys IH]; simpl; [reflexivity|].
  now rewrite IH.
Qed.

Lemma bucket_sum (keys : list JS.DateKey) (source : list Observation) :
  List.NoDup keys ->
  trendTotal (map (fun k => (k, countOnDay k source)) keys) =
  length (List.filter (onDays keys) source).
Proof.
  intros Hnd. rewrite trendTotal_map.
  induction source as [|item source IH].
  - simpl. clear Hnd. induction keys as [|k keys IHk]; simpl; [reflexivity|].
    now rewrite IHk.
  - simpl List.filter.
    assert (Hstep :
      fold_right (fun k acc => (countOnDay k (item :: source) + acc)%nat) 0%nat keys =
      (fold_right (fun k acc => ((if onDay k item then 1 else 0) + acc)%nat) 0%nat keys
       + fold_right (fun k acc => (countOnDay k source + acc)%nat) 0%nat keys)%nat).
    { clear. induction keys as [|k keys IHk]; simpl; [reflexivity|].
      rewrite IHk. unfold countOnDay. simpl.
      destruct (onDay k item); simpl; lia. }
    rewrite Hstep, IH, (hits_on_distinct_days keys item Hnd).
    destruct (onDays keys item); simpl; lia.
Qed.

Lemma trend_tabulated (trend : list (JS.DateKey * nat)) (source : list Observation) :
  (forall k n, In (k, n) trend -> n = countOnDay k source) ->
  trend = map (fun k => (k, countOnDay k source)) (map fst trend).
Proof.
  intros Hcount. induction trend as [|[k n] trend IH]; simpl; [reflexivity|].
  rewrite <- IH by (intros k' n' Hin; apply Hcount; now right).
  now rewrite (Hcount k n) by now left.
Qed.

Lemma Day_trendStart (tza : Z) (w : AnalysisWindow) (clock : Z) :
  JS.Day (trendStart tza w clock) =
  JS.Day (JS.LocalTime tza clock) - (Z.of_nat (trendDays w) - 1) + JS.Day (- tza).
Proof.
  unfold trendStart. rewrite startOfWindow_value, now_day.
  unfold JS.Day at 1. change JS.msPerDay with 86400000.
  replace ((JS.Day (JS.LocalTime tza clock) - (Z.of_nat (trendDays w) - 1)) * 86400000
           - tza)
    with (- tza + (JS.Day (JS.LocalTime tza clock) - (Z.of_nat (trendDays w) - 1))
                  * 86400000) by lia.
  rewrite Z.div_add by lia. unfold JS.Day. change JS.msPerDay with 86400000. lia.
Qed.


Lemma last_consecutive (first : Z) (n : nat) :
  last (map (fun i => first + Z.of_nat i) (seq 0 (S n))) = Some (first + Z.of_nat n).
Proof. rewrite seq_S, map_app. simpl. apply last_snoc. Qed.

Lemma trendDays_succ (w : AnalysisWindow) : exists n, trendDays w = S n.
Proof. destruct w; simpl; eauto. Qed.

End TrendSums.

Section TrendInUtc.
Local Open Scope Z_scope.

Lemma filter_all {A : Type} (f : A -> bool) (l : list A) :
  (forall x, In x l -> f x = true) -> List.filter f l = l.
Proof.
  induction l as [|x l IH]; intros H; simpl; [reflexivity|].
  rewrite (H x) by now left. f_equal. apply IH. intros y Hy. apply H. now right.
Qed.

Lemma Day_monotone (a b : Z) : a <= b -> JS.Day a <= JS.Day b.
Proof. intros H. apply Z.div_le_mono; [reflexivity | exact H]. Qed.

(** X6. With the host zone at UTC and a 7-day or 30-day window, every current
    observation falls in a bucket: the bucket values add up to [totalCount],
    and the series ends on the clock's day. *)
Theorem trend_total_in_utc (w : AnalysisWindow) (clock : Z)
    (observations : list Observation) (days : nat) :
  windowDays w = Some days ->
  exists trend,
    dailyTrend 0 w clock observations = JS.Ok trend /\
    trendTotal trend = length (currentItems 0 w clock observations) /\
    last (map fst trend) = Some (JS.Day clock).
Proof.
  intros Hw.
  destruct (trend_result 0 w clock observations) as (trend & Htrend & Hkeys & Hcount).
  exists trend. split; [exact Htrend|].
  assert (Hdays : trendDays w = days) by (unfold trendDays; now rewrite Hw).
  pose proof (windowDays_positive w days Hw) as Hpos.
  assert (Hfirst : JS.Day (trendStart 0 w clock) = JS.Day clock - (Z.of_nat days - 1)).
  { rewrite Day_trendStart, Hdays. unfold JS.LocalTime.
    change (JS.Day (- 0)) with 0. rewrite !Z.add_0_r. lia. }
  split.
  - rewrite (trend_tabulated trend _ Hcount) at 1.
    rewrite bucket_sum by (rewrite Hkeys; apply consecutive_NoDup).
    f_equal.
    assert (Hsource : trendSource 0 w clock observations =
                      currentItems 0 w clock observations)
      by (unfold trendSource; now rewrite Hw).
    rewrite Hsource. apply filter_all. intros item Hin.
    unfold currentItems in Hin. apply List.filter_In in Hin as [_ Hin].
    unfold currentStart in Hin. rewrite Hw in Hin. simpl in Hin.
    apply createdBetween_iff in Hin as (t & Ht & Hlo & Hhi).
    unfold onDays. apply existsb_exists. exists (JS.Day t).
    split; [|unfold onDay; rewrite Ht; apply Z.eqb_refl].
    rewrite Hkeys, Hfirst, Hdays.
    rewrite startOfWindow_value in Hlo. rewrite now_value in Hhi.
    rewrite now_day in Hlo. unfold JS.LocalTime in Hlo, Hhi.
    rewrite Z.add_0_r, Z.sub_0_r in Hlo, Hhi.
    assert (Hd1 : JS.Day clock - (Z.of_nat days - 1) <= JS.Day t).
    { apply Day_monotone in Hlo. unfold JS.Day in Hlo at 1.
      change JS.msPerDay with 86400000 in Hlo.
      rewrite Z.div_mul in Hlo by lia. exact Hlo. }
    assert (Hd2 : JS.Day t <= JS.Day clock).
    { apply Day_monotone in Hhi.
      rewrite (Day_between (JS.Day clock) (JS.Day clock * 86400000 + 86399999))
        in Hhi; [exact Hhi|].
      unfold JS.MakeDate. change JS.msPerDay with 86400000. lia. }
    apply in_map_iff.
    exists (Z.to_nat (JS.Day t - (JS.Day clock - (Z.of_nat days - 1)))).
    split; [lia|]. apply in_seq. lia.
  - destruct (trendDays_succ w) as [n Hn].
    rewrite Hkeys, Hn, last_consecutive, Hfirst. f_equal. lia.
Qed.

Lemma trend_total_in_utc_witness :
  windowDays W7d = Some 7%nat /\
  exists trend,
    dailyTrend 0 W7d sampleClock sampleLog = JS.Ok trend /\
    trendTotal trend = length (currentItems 0 W7d sampleClock sampleLog).
Proof.
  split; [reflexivity|].
  destruct (trend_total_in_utc W7d sampleClock sampleLog 7%nat eq_refl)
    as (trend & H1 & H2 & _).
  exists trend. split; [exact H1 | exact H2].
Defined.
End TrendInUtc.

(** *** Rankings *)

Lemma StronglySorted_app_inv {A : Type} (P : relation A) (l1 l2 : list A) (x y : A) :
  StronglySorted P (l1 ++ l2) -> In x l1 -> In y l2 -> P x y.
Proof.
  intros Hs Hx Hy. apply (StronglySorted_precedes P (l1 ++ l2)); [exact Hs|].
  apply in_split in Hx as (a & b & ->). apply in_split in Hy as (c & d & ->).
  exists a, (b ++ c), d. now rewrite <- !app_assoc.
Qed.

(** X7. A ranking keeps the most frequent keys: a key met in the current
    observations is either listed with its frequency or its frequency is at
    most the count of every listed entry; with at most five distinct keys
    every key is listed.  (Keys that are names inherited from
    [Object.prototype] are left aside.) *)
Theorem ranking_keeps_largest (dim : Dimension) (items : list Observation)
    (k : string) :
  Forall ordinaryKey (dimensionKeys dim items) ->
  In k (dimensionKeys dim items) ->
  let keys := dimensionKeys dim items in
  let top := ranking dim items in
  (In (k, frequency keys k) top \/
   forall e, In e top -> frequency keys k <= e.2) /\
  (length (firstSeen keys) <= 5 -> In (k, frequency keys k) top).
Proof.
  intros _ Hk keys top.
  set (table := map (fun k => (k, frequency keys k)) (firstSeen keys)).
  set (full := sortByCountDesc (JS.entries table)).
  assert (Htop : top = take 5 full).
  { unfold top. rewrite ranking_top5. unfold top5.
    now rewrite countKeys_tabulate. }
  assert (Hperm : Permutation full table).
  { unfold full. rewrite sortByCountDesc_perm. apply entries_perm. }
  assert (Hsorted : StronglySorted (rankedBefore (JS.entries table)) full)
    by apply sortByCountDesc_sorted.
  assert (Hin : In (k, frequency keys k) full).
  { apply (Permutation_in _ (Permutation_sym Hperm)).
    apply in_map_iff. exists k. split; [reflexivity | now apply firstSeen_In]. }
  rewrite <- (take_drop 5 full) in Hin, Hsorted. rewrite <- Htop in Hin, Hsorted.
  split.
  - apply in_app_or in Hin as [Hin|Hin]; [now left | right].
    intros e He.
    apply (rankedBefore_count (JS.entries table) e (k, frequency keys k)).
    now apply (StronglySorted_app_inv _ top (drop 5 full)).
  - intros Hfew. apply in_app_or in Hin as [Hin|Hin]; [exact Hin|].
    rewrite drop_ge in Hin; [contradiction|].
    rewrite (Permutation_length Hperm). unfold table. now rewrite length_map.
Qed.

Lemma ranking_keeps_largest_witness :
  Forall ordinaryKey (dimensionKeys ByTag namedCourses) /\
  In "重读异常" (dimensionKeys ByTag namedCourses) /\
  In ("重读异常", frequency (dimensionKeys ByTag namedCourses) "重读异常")
    (ranking ByTag namedCourses).
Proof.
  assert (H : Forall ordinaryKey (dimensionKeys ByTag namedCourses)).
  { unfold ordinaryKey. apply (bool_decide_unpack _). vm_compute. exact I. }
  assert (Hin : In "重读异常" (dimensionKeys ByTag namedCourses))
    by (simpl; tauto).
  split; [exact H|]. split; [exact Hin|].
  destruct (ranking_keeps_largest ByTag namedCourses "重读异常" H Hin) as [_ Hall].
  apply Hall. vm_compute. lia.
Defined.

(** *** The classifier *)

Section TagOrder.
Local Open Scope string_scope.

Lemma includes_join (k : string) (l : list string) :
  spaceFree k = true -> JS.includes "" k = false ->
  JS.includes (JS.toLowerCase (JS.join " " l)) k =
  existsb (fun t => JS.includes (JS.toLowerCase t) k) l.
Proof.
  intros Hfree Hempty. unfold JS.join.
  induction l as [|x l IH]; [exact Hempty|].
  destruct l as [|y l].
  - simpl. now rewrite orb_false_r.
  - change (String.concat " " (x :: y :: l))
      with (x +:+ " " +:+ String.concat " " (y :: l)).
    rewrite !toLowerCase_append.
    change (JS.toLowerCase " ") with " ".
    rewrite (includes_across_space k _ _ Hfree), IH. reflexivity.
Qed.

Lemma includes_mergedText (draft : ObservationDraft) (k : string) :
  spaceFree k = true -> JS.includes "" k = false ->
  JS.includes (mergedText draft) k =
  JS.includes (JS.toLowerCase (draft_issue_description draft)) k
  || existsb (fun t => JS.includes (JS.toLowerCase t) k) (draft_tags draft).
Proof.
  intros Hfree Hempty. unfold mergedText.
  change (JS.join " " [?a; ?b]) with (a +:+ " " +:+ b).
  rewrite !toLowerCase_append. change (JS.toLowerCase " ") with " ".
  now rewrite (includes_across_space k _ _ Hfree), includes_join.
Qed.

Lemma existsb_perm {A : Type} (f : A -> bool) (l l' : list A) :
  Permutation l l' -> existsb f l = existsb f l'.
Proof.
  induction 1 as [|x l l' _ IH|x y l|l l' l'' _ IH1 _ IH2]; simpl.
  - reflexivity.
  - now rewrite IH.
  - destruct (f x), (f y); reflexivity.
  - now rewrite IH1.
Qed.

Lemma filter_length_perm {A : Type} (f : A -> bool) (l l' : list A) :
  Permutation l l' -> length (List.filter f l) = length (List.filter f l').
Proof.
  induction 1 as [|x l l' _ IH|x y l|l l' l'' _ IH1 _ IH2]; simpl.
  - reflexivity.
  - destruct (f x); simpl; now rewrite IH.
  - destruct (f x), (f y); reflexivity.
  - now rewrite IH1.
Qed.

Lemma keyword_includes (draft : ObservationDraft) (k : string) :
  In k (textKeywords ++ ttsKeywords) ->
  JS.includes (mergedText draft) k =
  JS.includes (JS.toLowerCase (draft_issue_description draft)) k
  || existsb (fun t => JS.includes (JS.toLowerCase t) k) (draft_tags draft).
Proof.
  intros Hk. pose proof keywords_plain as Hplain. rewrite Forall_forall in Hplain.
  destruct (Hplain k) as (Hfree & _ & Hempty); [now apply list_elem_of_In|].
  now apply includes_mergedText.
Qed.

(** X8. The classification does not depend on the order in which the tags
    were selected: drafts with the same description whose tag lists are
    permutations of each other get the same category and the same reason. *)
Theorem inferCategory_ignores_tag_order (d1 d2 : ObservationDraft) :
  Permutation (draft_tags d1) (draft_tags d2) ->
  draft_issue_description d1 = draft_issue_description d2 ->
  inferCategory d1 = inferCategory d2.
Proof.
  intros Hperm Hdesc.
  assert (Hscore : forall keywords,
            (forall k, In k keywords -> In k (textKeywords ++ ttsKeywords)) ->
            getMatchScore (mergedText d1) keywords =
            getMatchScore (mergedText d2) keywords).
  { intros keywords Hsub. apply getMatchScore_ext, Forall_forall. intros k Hk.
    apply list_elem_of_In in Hk.
    rewrite !keyword_includes by now apply Hsub.
    now rewrite Hdesc, (existsb_perm _ _ _ Hperm). }
  assert (H1 : textTagScore d1 = textTagScore d2) by now apply filter_length_perm.
  assert (H2 : ttsTagScore d1 = ttsTagScore d2) by now apply filter_length_perm.
  assert (H3 : textKeywordScore d1 = textKeywordScore d2).
  { apply Hscore. intros k Hk. apply in_or_app. now left. }
  assert (H4 : ttsKeywordScore d1 = ttsKeywordScore d2).
  { apply Hscore. intros k Hk. apply in_or_app. now right. }
  unfold inferCategory, textScore, ttsScore. now rewrite H1, H2, H3, H4.
Qed.

Lemma inferCategory_ignores_tag_order_witness :
  Permutation (draft_tags tiedDraft) ["重读异常"; "文本表达别扭"] /\
  inferCategory tiedDraft =
  inferCategory (sampleDraft "第一课" ["重读异常"; "文本表达别扭"] "").
Proof.
  assert (H : Permutation (draft_tags tiedDraft) ["重读异常"; "文本表达别扭"])
    by apply perm_swap.
  split; [exact H|].
  apply inferCategory_ignores_tag_order; [exact H | reflexivity].
Defined.

(** X9. Without tags the keywords alone decide: the category is [text]
    exactly when more text keywords than tts keywords occur in the
    description; otherwise it is [tts]. *)
Theorem inferCategory_without_tags (draft : ObservationDraft) :
  draft_tags draft = [] ->
  textTagScore draft = 0 /\ ttsTagScore draft = 0 /\
  (result_category (inferCategory draft) = text <->
   ttsKeywordScore draft < textKeywordScore draft) /\
  (result_category (inferCategory draft) = tts <->
   textKeywordScore draft <= ttsKeywordScore draft).
Proof.
  intros Htags.
  assert (H1 : textTagScore draft = 0) by (unfold textTagScore; now rewrite Htags).
  assert (H2 : ttsTagScore draft = 0) by (unfold ttsTagScore; now rewrite Htags).
  split; [exact H1|]. split; [exact H2|].
  rewrite category_by_scores. unfold textScore, ttsScore. rewrite H1, H2. simpl.
  destruct (Nat.ltb_spec (ttsKeywordScore draft) (textKeywordScore draft)).
  - split; split; intros; try reflexivity; try lia; discriminate.
  - destruct (Nat.ltb_spec (textKeywordScore draft) (ttsKeywordScore draft));
      split; split; intros; try reflexivity; try lia; discriminate.
Qed.

Lemma inferCategory_without_tags_witness :
  draft_tags (sampleDraft "第一课" [] "夸奖太多，口语生硬，但是发音清楚") = [] /\
  result_category
    (inferCategory (sampleDraft "第一课" [] "夸奖太多，口语生硬，但是发音清楚")) = text.
Proof.
  split; [reflexivity|].
  destruct (inferCategory_without_tags
              (sampleDraft "第一课" [] "夸奖太多，口语生硬，但是发音清楚") eq_refl)
    as (_ & _ & Htext & _).
  apply Htext. vm_compute. lia.
Defined.
End TagOrder.

Section CanonicalTags.
Local Open Scope string_scope.

Lemma getMatchScore_mono (s s' : string) (keywords : list string) :
  Forall (fun k => JS.includes s k = true -> JS.includes s' k = true) keywords ->
  getMatchScore s keywords <= getMatchScore s' keywords.
Proof.
  intros H. rewrite !getMatchScore_filter.
  induction H as [|k keywords Hk _ IH]; simpl; [lia|].
  destruct (JS.includes s k); [rewrite Hk by reflexivity; simpl; lia|].
  destruct (JS.includes s' k); simpl; lia.
Qed.

Lemma includes_addTag (draft : ObservationDraft) (tag k : string) :
  In k (textKeywords ++ ttsKeywords) ->
  JS.includes (mergedText (addTag draft tag)) k =
  JS.includes (mergedText draft) k || JS.includes (JS.toLowerCase tag) k.
Proof.
  intros Hk. rewrite !keyword_includes by exact Hk.
  unfold addTag. simpl. rewrite existsb_app. simpl.
  now rewrite orb_false_r, orb_assoc.
Qed.

Lemma tagScore_addTag_absent (tagSet : gset string) (l : list string) (tag : string) :
  tag ∉ tagSet ->
  length (List.filter (fun t => bool_decide (t ∈ tagSet)) (l ++ [tag])) =
  length (List.filter (fun t => bool_decide (t ∈ tagSet)) l).
Proof.
  intros Hnot. rewrite List.filter_app, length_app. simpl.
  rewrite bool_decide_eq_false_2 by exact Hnot. simpl. lia.
Qed.

Lemma canonical_tags_separate :
  forallb (fun tag => String.eqb tag "其他" || ttsOnly tag) ttsIssueTags = true /\
  forallb (fun tag => String.eqb tag "其他" || textOnly tag) textIssueTags = true.
Proof. split; vm_compute; reflexivity. Qed.

(** X10. Adding a canonical tag of one domain (any but the shared "其他")
    never moves a draft out of that domain's category: a [tts] draft stays
    [tts] when a tts tag is added, a [text] draft stays [text] when a text
    tag is added. *)
Theorem canonical_tag_keeps_category (draft : ObservationDraft) (tag : string) :
  tag <> "其他" ->
  (In tag ttsIssueTags -> result_category (inferCategory draft) = tts ->
   result_category (inferCategory (addTag draft tag)) = tts) /\
  (In tag textIssueTags -> result_category (inferCategory draft) = text ->
   result_category (inferCategory (addTag draft tag)) = text).
Proof.
  intros Hother.
  destruct canonical_tags_separate as [Htts Htext].
  rewrite forallb_forall in Htts, Htext.
  split; intros Hin Hcat.
  - specialize (Htts tag Hin). apply orb_true_iff in Htts as [Heq|Honly];
      [apply String.eqb_eq in Heq; contradiction|].
    unfold ttsOnly in Honly.
    apply andb_true_iff in Honly as [Honly Hkw].
    apply andb_true_iff in Honly as [Hnot Hmem].
    apply negb_true_iff, bool_decide_eq_false in Hnot.
    apply bool_decide_eq_true in Hmem. rewrite forallb_forall in Hkw.
    assert (H1 : textTagScore (addTag draft tag) = textTagScore draft)
      by now apply tagScore_addTag_absent.
    assert (H2 : ttsTagScore (addTag draft tag) = ttsTagScore draft + 1)
      by now apply tagScore_addTag.
    assert (H3 : textKeywordScore (addTag draft tag) = textKeywordScore draft).
    { apply getMatchScore_ext, Forall_forall. intros k Hk.
      apply list_elem_of_In in Hk.
      rewrite includes_addTag by (apply in_or_app; now left).
      specialize (Hkw k Hk). apply negb_true_iff in Hkw.
      now rewrite Hkw, orb_false_r. }
    assert (H4 : ttsKeywordScore draft <= ttsKeywordScore (addTag draft tag)).
    { apply getMatchScore_mono, Forall_forall. intros k Hk Hold.
      apply list_elem_of_In in Hk.
      rewrite includes_addTag by (apply in_or_app; now right).
      now rewrite Hold. }
    rewrite category_by_scores in *. unfold textScore, ttsScore in *.
    rewrite H1, H2, H3.
    destruct (Nat.ltb_spec (ttsTagScore draft * 2 + ttsKeywordScore draft)
                (textTagScore draft * 2 + textKeywordScore draft)); [discriminate|].
    destruct (Nat.ltb_spec (textTagScore draft * 2 + textKeywordScore draft)
                (ttsTagScore draft * 2 + ttsKeywordScore draft)).
    + destruct (Nat.ltb_spec
                  ((ttsTagScore draft + 1) * 2 + ttsKeywordScore (addTag draft tag))
                  (textTagScore draft * 2 + textKeywordScore draft)); [lia|].
      destruct (Nat.ltb_spec (textTagScore draft * 2 + textKeywordScore draft)
                  ((ttsTagScore draft + 1) * 2 + ttsKeywordScore (addTag draft tag)));
        [reflexivity | lia].
    + destruct (Nat.ltb_spec
                  ((ttsTagScore draft + 1) * 2 + ttsKeywordScore (addTag draft tag))
                  (textTagScore draft * 2 + textKeywordScore draft)); [lia|].
      destruct (Nat.ltb_spec (textTagScore draft * 2 + textKeywordScore draft)
                  ((ttsTagScore draft + 1) * 2 + ttsKeywordScore (addTag draft tag)));
        [reflexivity | lia].
  - specialize (Htext tag Hin). apply orb_true_iff in Htext as [Heq|Honly];
      [apply String.eqb_eq in Heq; contradiction|].
    unfold textOnly in Honly.
    apply andb_true_iff in Honly as [Honly Hkw].
    apply andb_true_iff in Honly as [Hnot Hmem].
    apply negb_true_iff, bool_decide_eq_false in Hnot.
    apply bool_decide_eq_true in Hmem. rewrite forallb_forall in Hkw.
    assert (H1 : ttsTagScore (addTag draft tag) = ttsTagScore draft)
      by now apply tagScore_addTag_absent.
    assert (H2 : textTagScore (addTag draft tag) = textTagScore draft + 1)
      by now apply tagScore_addTag.
    assert (H3 : ttsKeywordScore (addTag draft tag) = ttsKeywordScore draft).
    { apply getMatchScore_ext, Forall_forall. intros k Hk.
      apply list_elem_of_In in Hk.
      rewrite includes_addTag by (apply in_or_app; now right).
      specialize (Hkw k Hk). apply negb_true_iff in Hkw.
      now rewrite Hkw, orb_false_r. }
    assert (H4 : textKeywordScore draft <= textKeywordScore (addTag draft tag)).
    { apply getMatchScore_mono, Forall_forall. intros k Hk Hold.
      apply list_elem_of_In in Hk.
      rewrite includes_addTag by (apply in_or_app; now left).
      now rewrite Hold. }
    rewrite category_by_scores in *. unfold textScore, ttsScore in *.
    rewrite H1, H2, H3.
    destruct (Nat.ltb_spec
                (ttsTagScore draft * 2 + ttsKeywordScore draft)
                ((textTagScore draft + 1) * 2 + textKeywordScore (addTag draft tag)));
      [reflexivity|].
    destruct (Nat.ltb_spec (ttsTagScore draft * 2 + ttsKeywordScore draft)
                (textTagScore draft * 2 + textKeywordScore draft)); [lia|].
    destruct (Nat.ltb_spec (textTagScore draft * 2 + textKeywordScore draft)
                (ttsTagScore draft * 2 + ttsKeywordScore draft)); [discriminate|].
    lia.
Qed.

Lemma canonical_tag_keeps_category_witness :
  "重读异常" <> "其他" /\ In "重读异常" ttsIssueTags /\
  result_category (inferCategory pauseDraft) = tts /\
  result_category (inferCategory (addTag pauseDraft "重读异常")) = tts.
Proof.
  assert (H1 : "重读异常" <> "其他") by discriminate.
  assert (H2 : In "重读异常" ttsIssueTags) by (simpl; tauto).
  assert (H3 : result_category (inferCategory pauseDraft) = tts)
    by (vm_compute; reflexivity).
  split; [exact H1|]. split; [exact H2|]. split; [exact H3|].
  exact (proj1 (canonical_tag_keeps_category pauseDraft "重读异常" H1) H2 H3).
Defined.
End CanonicalTags.

(** *** Editing a draft *)

Section Toggles.
Local Open Scope string_scope.

Lemma In_remove (tag t : string) (l : list string) :
  In t (List.filter (fun item => negb (String.eqb item tag)) l) <-> In t l /\ t <> tag.
Proof. rewrite List.filter_In, negb_true_iff, String.eqb_neq. tauto. Qed.

Lemma remove_absent (tag : string) (l : list string) :
  ~ In tag l -> List.filter (fun item => negb (String.eqb item tag)) l = l.
Proof.
  intros Hnot. apply filter_all. intros t Ht.
  apply negb_true_iff, String.eqb_neq. intros ->. contradiction.
Qed.

Lemma NoDup_snoc (l : list string) (x : string) :
  List.NoDup l -> ~ In x l -> List.NoDup (l ++ [x]).
Proof.
  intros Hnd Hnot. apply List.NoDup_app; [exact Hnd | |].
  - constructor; [simpl; tauto | constructor].
  - intros y Hy [<-|[]]. contradiction.
Qed.

(** X11. [toggleTag] flips the membership of the tag and of no other tag,
    keeps a duplicate-free tag list duplicate-free, and applied twice to a
    tag that was not selected gives back the draft. *)
Theorem toggleTag_flips (draft : ObservationDraft) (tag : string) :
  (In tag (draft_tags (toggleTag draft tag)) <-> ~ In tag (draft_tags draft)) /\
  (forall t, t <> tag ->
     (In t (draft_tags (toggleTag draft tag)) <-> In t (draft_tags draft))) /\
  (List.NoDup (draft_tags draft) -> List.NoDup (draft_tags (toggleTag draft tag))) /\
  (~ In tag (draft_tags draft) -> toggleTag (toggleTag draft tag) tag = draft).
Proof.
  destruct (bool_decide (tag ∈ draft_tags draft)) eqn:Hb.
  - assert (Htoggle : toggleTag draft tag = removeTag draft tag)
      by (unfold toggleTag; now rewrite Hb).
    apply bool_decide_eq_true, list_elem_of_In in Hb.
    rewrite Htoggle. unfold removeTag. simpl.
    split; [rewrite In_remove; tauto|].
    split; [intros t Ht; rewrite In_remove; tauto|].
    split; [apply List.NoDup_filter | tauto].
  - assert (Htoggle : toggleTag draft tag = addTag draft tag)
      by (unfold toggleTag; now rewrite Hb).
    apply bool_decide_eq_false in Hb. rewrite list_elem_of_In in Hb.
    rewrite Htoggle. unfold addTag at 1 2 3. simpl.
    split; [rewrite in_app_iff; simpl; tauto|].
    split; [intros t Ht; rewrite in_app_iff; simpl; intuition congruence|].
    split; [intros Hnd; now apply NoDup_snoc|].
    intros _. unfold toggleTag, addTag. simpl.
    rewrite bool_decide_eq_true_2
      by (apply list_elem_of_In, in_or_app; right; now left).
    unfold removeTag. simpl. rewrite List.filter_app, remove_absent by exact Hb.
    simpl. rewrite String.eqb_refl. simpl. rewrite app_nil_r.
    now destruct draft.
Qed.

(** X12. [toggleFeeling] flips the membership of the feeling; afterwards the
    free text is empty unless "其他" is selected, and it is the old free text
    whenever "其他" is still selected. *)
Theorem toggleFeeling_keeps_other_text (draft : ObservationDraft) (feeling : string) :
  let next := toggleFeeling draft feeling in
  (In feeling (draft_feeling_tags next) <-> ~ In feeling (draft_feeling_tags draft)) /\
  (~ In feelingOtherOption (draft_feeling_tags next) -> draft_feeling_other next = "") /\
  (In feelingOtherOption (draft_feeling_tags next) ->
   draft_feeling_other next = draft_feeling_other draft) /\
  draft_tags next = draft_tags draft.
Proof.
  cbv zeta. unfold toggleFeeling.
  destruct (bool_decide (feeling ∈ draft_feeling_tags draft)) eqn:Hb; simpl.
  - apply bool_decide_eq_true, list_elem_of_In in Hb.
    split; [rewrite In_remove; tauto|].
    split; [|split; [|reflexivity]]; intros H.
    + rewrite bool_decide_eq_false_2; [reflexivity|].
      now rewrite list_elem_of_In.
    + rewrite bool_decide_eq_true_2; [reflexivity|].
      now rewrite list_elem_of_In.
  - apply bool_decide_eq_false in Hb. rewrite list_elem_of_In in Hb.
    split; [rewrite in_app_iff; simpl; tauto|].
    split; [|split; [|reflexivity]]; intros H.
    + rewrite bool_decide_eq_false_2; [reflexivity|].
      now rewrite list_elem_of_In.
    + rewrite bool_decide_eq_true_2; [reflexivity|].
      now rewrite list_elem_of_In.
Qed.
End Toggles.

(** *** The CSV export *)

Section Csv.
Local Open Scope string_scope.

Lemma append_empty_r (a : string) : a +:+ "" = a.
Proof.
  induction a as [|x a IH]; [reflexivity|]. rewrite append_cons. now f_equal.
Qed.

Lemma parse_cell (value cell : string) (cells : list string) (rest : string) :
  parseCsv InCell cell cells (doubleQuotes value +:+ String quote rest) =
  parseCsv AfterQuote (cell +:+ value) cells rest.
Proof.
  revert cell. induction value as [|c value IH]; intros cell.
  - rewrite append_empty_r. simpl doubleQuotes. rewrite append_nil.
    cbn [parseCsv]. now rewrite Ascii.eqb_refl.
  - simpl doubleQuotes. destruct (Ascii.eqb c quote) eqn:Hc.
    + apply Ascii.eqb_eq in Hc. subst c.
      rewrite !append_cons. cbn [parseCsv]. rewrite !Ascii.eqb_refl.
      rewrite IH, append_assoc. reflexivity.
    + rewrite append_cons. cbn [parseCsv]. rewrite Hc.
      rewrite IH, append_assoc. reflexivity.
Qed.

Lemma csvRow_cons (x y : string) (row : list string) :
  csvRow (x :: y :: row) = escapeCsv x +:+ "," +:+ csvRow (y :: row).
Proof. reflexivity. Qed.

Lemma parse_row (row cells : list string) :
  row <> [] -> parseCsv AtCellStart "" cells (csvRow row) = Some (cells ++ row)%list.
Proof.
  revert cells. induction row as [|x row IH]; intros cells Hne; [congruence|].
  destruct row as [|y row].
  - change (csvRow [x]) with (String quote (doubleQuotes x +:+ String quote "")).
    cbn [parseCsv]. rewrite Ascii.eqb_refl, parse_cell, append_nil. reflexivity.
  - rewrite csvRow_cons. unfold escapeCsv. rewrite append_cons, append_assoc.
    cbn [parseCsv]. rewrite Ascii.eqb_refl.
    change (String quote "" +:+ "," +:+ csvRow (y :: row))
      with (String quote ("," +:+ csvRow (y :: row))).
    rewrite parse_cell, append_nil.
    change ("," +:+ csvRow (y :: row)) with (String "," (csvRow (y :: row))).
    cbn [parseCsv]. change (Ascii.eqb "," quote) with false.
    rewrite Ascii.eqb_refl. cbv iota.
    rewrite IH by discriminate. now rewrite <- app_assoc.
Qed.

Lemma parseCsvRow_csvRow (row : list string) : parseCsvRow (csvRow row) = Some row.
Proof.
  unfold parseCsvRow. destruct row as [|x row]; [reflexivity|].
  now rewrite parse_row.
Qed.

(** X13. The CSV encoding loses nothing: two cell values with the same
    [escapeCsv] text are equal, and two rows with the same exported line are
    equal cell by cell, whatever commas, quotes or line breaks the cells
    hold. *)
Theorem csv_encoding_injective :
  (forall a b, escapeCsv a = escapeCsv b -> a = b) /\
  (forall row1 row2, csvRow row1 = csvRow row2 -> row1 = row2).
Proof.
  assert (Hrows : forall row1 row2, csvRow row1 = csvRow row2 -> row1 = row2).
  { intros row1 row2 Heq.
    pose proof (parseCsvRow_csvRow row1) as H1.
    rewrite Heq, parseCsvRow_csvRow in H1. congruence. }
  split; [|exact Hrows].
  intros a b Heq. specialize (Hrows [a] [b] Heq). congruence.
Qed.
End Csv.

(** *** Sessions, options and the trend scale *)

Section Lookups.
Local Open Scope string_scope.

Lemma sessionMap_snoc (sessions : list Session) (session : Session) :
  sessionMap (sessions ++ [session]) =
  <[session_id_ session := session]> (sessionMap sessions).
Proof. unfold sessionMap. now rewrite fold_left_app. Qed.

(** X14. The session lookup returns the last session of the list that has
    the requested id, and nothing when no session has it; the reporter shown
    with a sample then falls back to "未知". *)
Theorem sessionMap_last_wins (sessions : list Session) (k : string) :
  sessionMap sessions !! k =
    List.find (fun s => String.eqb (session_id_ s) k) (rev sessions) /\
  (sessionMap sessions !! k = None <->
   forall s, In s sessions -> session_id_ s <> k) /\
  ((forall s, In s sessions -> session_id_ s <> k) ->
   default "未知" (reporter_name <$> sessionMap sessions !! k) = "未知").
Proof.
  assert (Hfind : sessionMap sessions !! k =
                  List.find (fun s => String.eqb (session_id_ s) k) (rev sessions)).
  { induction sessions as [|s sessions IH] using rev_ind; [reflexivity|].
    rewrite sessionMap_snoc, rev_app_distr. simpl.
    rewrite lookup_insert. destruct (String.eqb_spec (session_id_ s) k) as [Heq|Hne].
    - now rewrite decide_True.
    - now rewrite decide_False. }
  assert (Hnone : sessionMap sessions !! k = None <->
                  forall s, In s sessions -> session_id_ s <> k).
  { rewrite Hfind. split.
    - intros Hn s Hs. apply in_rev in Hs.
      apply (find_none _ _ Hn) in Hs. now apply String.eqb_neq.
    - intros Hall. destruct (List.find _ (rev sessions)) as [s|] eqn:Hf; [|reflexivity].
      apply find_some in Hf as [Hin Heq]. apply in_rev in Hin.
      apply String.eqb_eq in Heq. now apply Hall in Hin. }
  split; [exact Hfind|]. split; [exact Hnone|].
  intros Hall. apply Hnone in Hall. now rewrite Hall.
Qed.

Lemma fold_max_spec (values : list nat) (start : nat) :
  let m := fold_left Nat.max values start in
  start <= m /\ (forall v, In v values -> v <= m) /\ (m = start \/ In m values).
Proof.
  revert start. induction values as [|v values IH]; intros start; simpl.
  - split; [lia|]. split; [tauto | now left].
  - destruct (IH (Nat.max start v)) as (H1 & H2 & H3).
    split; [lia|]. split.
    + intros x [<-|Hx]; [lia | now apply H2].
    + destruct H3 as [H3|H3]; [|right; now right].
      rewrite H3.
      destruct (Nat.max_spec start v) as [[_ Hm]|[_ Hm]]; rewrite Hm;
        [right; left; reflexivity | left; reflexivity].
Qed.

(** X15. [maxTrendCount] is at least 1 and at least every bucket value, and
    it is 1 or the value of some bucket: the divisor of the bar widths is
    never zero and no bucket exceeds it. *)
Theorem maxTrendCount_bounds (trend : list (JS.DateKey * nat)) :
  1 <= maxTrendCount trend /\
  (forall e, In e trend -> e.2 <= maxTrendCount trend) /\
  (maxTrendCount trend = 1 \/ exists e, In e trend /\ e.2 = maxTrendCount trend).
Proof.
  unfold maxTrendCount.
  destruct (fold_max_spec (map snd trend) 1) as (H1 & H2 & H3).
  split; [exact H1|]. split.
  - intros e He. apply H2. now apply in_map.
  - destruct H3 as [H3|H3]; [now left | right].
    apply in_map_iff in H3 as (e & Heq & He). now exists e.
Qed.

Lemma setToArray_firstSeen (values : list string) :
  setToArray values = firstSeen values.
Proof.
  unfold setToArray. induction values as [|v values IH] using rev_ind; [reflexivity|].
  rewrite fold_left_app. simpl. rewrite IH, firstSeen_snoc.
  destruct (decide (v ∈ values)) as [Hin|Hnot].
  - rewrite bool_decide_eq_true_2; [reflexivity|].
    now apply list_elem_of_In, firstSeen_In, list_elem_of_In.
  - rewrite bool_decide_eq_false_2; [reflexivity|].
    intros Hin. apply Hnot. now apply list_elem_of_In, firstSeen_In, list_elem_of_In.
Qed.

(** X16. The filter options list each value once, in the order of first
    occurrence: a course is offered exactly when some observation carries
    that non-empty course name, a tag exactly when some observation carries
    it. *)
Theorem filter_options (observations : list Observation) :
  List.NoDup (courseOptions observations) /\
  List.NoDup (tagOptions observations) /\
  (forall c, In c (courseOptions observations) <->
     c <> "" /\ exists item, In item observations /\ course_name item = c) /\
  (forall t, In t (tagOptions observations) <->
     exists item, In item observations /\ In t (tags item)) /\
  courseOptions observations =
    firstSeen (List.filter nonEmpty (map course_name observations)) /\
  tagOptions observations = firstSeen (flat_map tags observations).
Proof.
  unfold courseOptions, tagOptions. rewrite !setToArray_firstSeen.
  split; [apply firstSeen_NoDup|]. split; [apply firstSeen_NoDup|].
  split; [|split; [|split; reflexivity]].
  - intros c. rewrite firstSeen_In, List.filter_In, in_map_iff.
    unfold nonEmpty. rewrite negb_true_iff, String.eqb_neq.
    split.
    + intros [(item & Heq & Hin) Hne]. split; [exact Hne | now exists item].
    + intros [Hne (item & Hin & Heq)]. split; [now exists item | exact Hne].
  - intros t. rewrite firstSeen_In, in_flat_map. reflexivity.
Qed.
End Lookups.

(** *** Deleting a profile *)

Section DeleteProfile.
Local Open Scope string_scope.

Lemma frequency_map {A : Type} (f : A -> string) (items : list A) (k : string) :
  frequency (map f items) k =
  length (List.filter (fun item => String.eqb (f item) k) items).
Proof.
  unfold frequency. induction items as [|item items IH]; simpl; [reflexivity|].
  destruct (string_dec (f item) k) as [Heq|Hne].
  - rewrite (proj2 (String.eqb_eq _ _) Heq). simpl. now rewrite IH.
  - rewrite (proj2 (String.eqb_neq _ _) Hne). exact IH.
Qed.

Lemma relatedCount_frequency (observations : list Observation) (k : string) :
  relatedCount observations k = frequency (map session_id observations) k.
Proof.
  unfold relatedCount, observationCountBySession.
  rewrite fold_bump_map. fold (countKeys (map session_id observations)).
  rewrite countKeys_tabulate, get_tabulate.
  destruct (decide (k ∈ firstSeen (map session_id observations))) as [_|Hnot];
    [reflexivity|].
  simpl. symmetry. apply frequency_absent. intros Hin. apply Hnot.
  now apply list_elem_of_In, firstSeen_In.
Qed.

Lemma filter_split_length {A : Type} (f : A -> bool) (l : list A) :
  length l = length (List.filter f l) + length (List.filter (fun x => negb (f x)) l).
Proof.
  induction l as [|x l IH]; simpl; [reflexivity|].
  destruct (f x); simpl; lia.
Qed.

(** X17. Deleting a profile removes exactly the observations counted for it:
    the number announced in the confirmation ([observationCountBySession]
    read at the profile id, 0 when absent) is the number of observations
    that disappear; afterwards no session and no observation carries the id,
    and every observation of another session is kept.  (Session ids that are
    names inherited from [Object.prototype] are left aside.) *)
Theorem deleteProfile_cascade (profileId : string) (sessions : list Session)
    (observations : list Observation) :
  ordinaryKey profileId ->
  Forall ordinaryKey (map session_id observations) ->
  let after := deleteProfile profileId (sessions, observations) in
  length observations = length after.2 + relatedCount observations profileId /\
  relatedCount after.2 profileId = 0 /\
  (forall s, In s after.1 <-> In s sessions /\ session_id_ s <> profileId) /\
  (forall item, In item after.2 <->
     In item observations /\ session_id item <> profileId).
Proof.
  intros _ _ after. unfold after, deleteProfile. simpl.
  rewrite !relatedCount_frequency, !frequency_map.
  split; [|split; [|split]].
  - rewrite (filter_split_length
               (fun item => String.eqb (session_id item) profileId) observations).
    lia.
  - destruct (List.filter _ (List.filter _ observations)) as [|x l] eqn:Hf;
      [reflexivity|].
    assert (Hx : In x (x :: l)) by now left.
    rewrite <- Hf in Hx. apply List.filter_In in Hx as [Hx Heq].
    apply List.filter_In in Hx as [_ Hne].
    rewrite Heq in Hne. discriminate.
  - intros s. rewrite List.filter_In, negb_true_iff, String.eqb_neq. reflexivity.
  - intros item. rewrite List.filter_In, negb_true_iff, String.eqb_neq. reflexivity.
Qed.

Lemma deleteProfile_cascade_witness :
  ordinaryKey "s1" /\
  Forall ordinaryKey (map session_id sampleLog) /\
  relatedCount sampleLog "s1" = 4 /\
  length sampleLog = length (deleteProfile "s1" ([], sampleLog)).2 + 4.
Proof.
  assert (H1 : ordinaryKey "s1")
    by (unfold ordinaryKey; apply (bool_decide_unpack _); vm_compute; exact I).
  assert (H2 : Forall ordinaryKey (map session_id sampleLog))
    by (unfold ordinaryKey; apply (bool_decide_unpack _); vm_compute; exact I).
  assert (H3 : relatedCount sampleLog "s1" = 4) by (vm_compute; reflexivity).
  split; [exact H1|]. split; [exact H2|]. split; [exact H3|].
  destruct (deleteProfile_cascade "s1" [] sampleLog H1 H2) as (Hlen & _).
  rewrite H3 in Hlen. exact Hlen.
Defined.
End DeleteProfile.

(** *** Periods and the clock *)

Section Periods.
Local Open Scope Z_scope.

Lemma disjoint_filters_length {A : Type} (f g : A -> bool) (l : list A) :
  (forall x, In x l -> f x = true -> g x = false) ->
  (length (List.filter f l) + length (List.filter g l) <= length l)%nat.
Proof.
  induction l as [|x l IH]; intros H; simpl; [lia|].
  assert (IH' := IH (fun y Hy => H y (or_intror Hy))).
  destruct (f x) eqn:Hf.
  - rewrite (H x (or_introl eq_refl) Hf). simpl. lia.
  - destruct (g x); simpl; lia.
Qed.

(** X18. No observation is counted twice: the current total and the size of
    the previous period together never exceed the size of the log. *)
Theorem period_counts_bounded (tza : Z) (w : AnalysisWindow) (clock : Z)
    (observations : list Observation) :
  (length (currentItems tza w clock observations)
   + length (previousItems tza w clock observations) <= length observations)%nat.
Proof.
  unfold currentItems, previousItems, previousStart, previousEnd.
  destruct (currentStart tza w clock) as [cs|] eqn:Hcs.
  - destruct (windowDays w) as [days|] eqn:Hw; simpl.
    + apply disjoint_filters_length. intros item _ Hcur.
      apply createdBetween_iff in Hcur as (t & Ht & Hlo & _).
      unfold createdBetween, JS.date_ge, JS.date_le. rewrite Ht.
      apply andb_false_iff. right. apply Z.leb_gt. lia.
    + rewrite Nat.add_0_r. apply filter_length_le.
  - destruct (windowDays w); simpl; rewrite Nat.add_0_r; apply filter_length_le.
Qed.

(** X19. The report depends on the clock only through its local day: two
    clock readings on the same local day give the same aggregation. *)
Theorem report_same_within_day (tza : Z) (w : AnalysisWindow) (clock clock' : Z)
    (observations : list Observation) :
  JS.Day (JS.LocalTime tza clock) = JS.Day (JS.LocalTime tza clock') ->
  analysisData tza w clock observations = analysisData tza w clock' observations.
Proof.
  intros Hday.
  assert (Hnow : now tza clock = now tza clock')
    by (unfold now, JS.setHours; now rewrite Hday).
  unfold analysisData, dailyTrend, trendCountMap, trendInit, trendSource, trendStart,
    currentItems, previousItems, previousStart, previousEnd, currentStart.
  now rewrite Hnow.
Qed.

Lemma report_same_within_day_witness :
  JS.Day (JS.LocalTime utcPlus8 sampleClock) =
  JS.Day (JS.LocalTime utcPlus8 (sampleClock + 3600000)) /\
  analysisData utcPlus8 W7d sampleClock sampleLog =
  analysisData utcPlus8 W7d (sampleClock + 3600000) sampleLog.
Proof.
  assert (H : JS.Day (JS.LocalTime utcPlus8 sampleClock) =
              JS.Day (JS.LocalTime utcPlus8 (sampleClock + 3600000)))
    by (vm_compute; reflexivity).
  split; [exact H|]. now apply report_same_within_day.
Defined.
End Periods.
